(** * url_date_google: a shallow embedding of the scraper and its specification

    The development follows [src/url_date_google.py].  Python strings are
    sequences of Unicode code points, the regular expressions of the module
    are terms of a small regular-expression syntax executed by a backtracking
    matcher with the search order of Python's [re], fallible calls return a
    [result], and the browser session is a record of the answers the page
    object gives while one URL is being processed. *)

From Stdlib Require Import List NArith ZArith String Ascii Bool Lia.
Import ListNotations.

Set Implicit Arguments.

(** ** Python strings *)

Definition cp := N.
Definition pystr := list cp.

Definition pystr_eqb (a b : pystr) : bool :=
  if list_eq_dec N.eq_dec a b then true else false.

Fixpoint bytes_of (s : string) : list N :=
  match s with
  | EmptyString => []
  | String a s' => N_of_ascii a :: bytes_of s'
  end.

(** UTF-8 decoding of a source literal into code points: [pending] counts the
    continuation bytes still expected and [acc] holds the bits read so far. *)
Fixpoint utf8_decode (pending : nat) (acc : N) (bs : list N) : pystr :=
  match bs with
  | [] => []
  | b :: bs' =>
      match pending with
      | O =>
          if (b <? 128)%N then b :: utf8_decode 0 0%N bs'
          else if (b <? 224)%N then utf8_decode 1 (N.land b 31) bs'
          else if (b <? 240)%N then utf8_decode 2 (N.land b 15) bs'
          else utf8_decode 3 (N.land b 7) bs'
      | S O => (acc * 64 + N.land b 63)%N :: utf8_decode 0 0%N bs'
      | S p => utf8_decode p (acc * 64 + N.land b 63)%N bs'
      end
  end.

Definition py (s : string) : pystr := utf8_decode 0 0%N (bytes_of s).

Definition in_range (lo hi c : N) : bool := ((lo <=? c) && (c <=? hi))%N.

Definition is_ascii (c : cp) : bool := (c <? 128)%N.

(** [str.isspace] on one code point, which is also [\s] of a [str] pattern. *)
Definition is_space (c : cp) : bool :=
  in_range 9 13 c || in_range 28 32 c || (c =? 133)%N || (c =? 160)%N
  || (c =? 5760)%N || in_range 8192 8202 c || (c =? 8232)%N || (c =? 8233)%N
  || (c =? 8239)%N || (c =? 8287)%N || (c =? 12288)%N.

Definition is_upper_AZ (c : cp) : bool := in_range 65 90 c.
Definition is_lower_az (c : cp) : bool := in_range 97 122 c.
Definition is_digit_09 (c : cp) : bool := in_range 48 57 c.

Definition ascii_lower (c : cp) : cp :=
  if is_upper_AZ c then (c + 32)%N else c.

(** What the interpreter takes from its Unicode database and C library: the
    decimal value of a non-ASCII digit, [str.lower] on a string that is not
    pure ASCII, and the rendering of [%Y] for a year below 1000 (padded or
    not, depending on the C library). *)
Record Platform := {
  unicode_decimal : cp -> option N;
  unicode_lower : pystr -> pystr;
  libc_small_year : N -> pystr
}.

(** [Py_UNICODE_TODECIMAL]: the value of a decimal digit. *)
Definition to_decimal (P : Platform) (c : cp) : option N :=
  if is_ascii c then (if is_digit_09 c then Some (c - 48)%N else None)
  else unicode_decimal P c.

Definition is_decimal (P : Platform) (c : cp) : bool :=
  match to_decimal P c with Some _ => true | None => false end.

(** [str.lower] *)
Definition str_lower (P : Platform) (s : pystr) : pystr :=
  if forallb is_ascii s then map ascii_lower s else unicode_lower P s.

Fixpoint lstrip (s : pystr) : pystr :=
  match s with
  | c :: s' => if is_space c then lstrip s' else s
  | [] => []
  end.

(** [str.strip()] *)
Definition strip (s : pystr) : pystr := rev (lstrip (rev (lstrip s))).

Fixpoint startswith (s prefix : pystr) : bool :=
  match prefix, s with
  | [], _ => true
  | p :: prefix', c :: s' => (c =? p)%N && startswith s' prefix'
  | _ :: _, [] => false
  end.

Fixpoint find_from (i : Z) (s sub : pystr) : Z :=
  if startswith s sub then i
  else match s with
       | [] => (-1)%Z
       | _ :: s' => find_from (i + 1)%Z s' sub
       end.

(** [str.find]: the lowest index of [sub] in [s], or [-1]. *)
Definition find (s sub : pystr) : Z := find_from 0%Z s sub.

(** ** Exceptions *)

Inductive result (A : Type) : Type :=
| Ok (a : A)
| Raise.
Arguments Raise {A}.

Definition rbind {A B} (r : result A) (f : A -> result B) : result B :=
  match r with
  | Ok a => f a
  | Raise => Raise
  end.

(** ** Regular expressions with the search order of [re]

    The fragment that the module and [_strptime] use: character classes,
    concatenation, ordered alternation, the greedy star of a class and
    capture groups. *)
Module Re.

Inductive regex : Type :=
| Eps
| Cls (p : cp -> bool)
| Seq (r1 r2 : regex)
| Alt (r1 r2 : regex)
| Star (p : cp -> bool)
| Grp (name : string) (r : regex).

Definition captures := list (string * pystr).

Definition Chr (c : cp) : regex := Cls (N.eqb c).
Definition Plus (p : cp -> bool) : regex := Seq (Cls p) (Star p).
Definition Opt (r : regex) : regex := Alt r Eps.

Fixpoint Lit (s : pystr) : regex :=
  match s with
  | [] => Eps
  | [c] => Chr c
  | c :: s' => Seq (Chr c) (Lit s')
  end.

Section Matcher.
Variable A : Type.

(** Greedy [p*]: take as many characters as the class allows, and give one
    back at a time while the rest of the pattern fails. *)
Fixpoint star_k (p : cp -> bool) (s : pystr) (k : pystr -> option A)
  : option A :=
  match s with
  | c :: s' =>
      if p c then
        match star_k p s' k with
        | Some x => Some x
        | None => k s
        end
      else k s
  | [] => k s
  end.

(** [match_k r s caps k]: match [r] at the head of [s] and hand the
    remaining input and the groups closed so far to [k]; where [k] fails
    the matcher backtracks into [r]. *)
Fixpoint match_k (r : regex) (s : pystr) (caps : captures)
         (k : pystr -> captures -> option A) : option A :=
  match r with
  | Eps => k s caps
  | Cls p =>
      match s with
      | c :: s' => if p c then k s' caps else None
      | [] => None
      end
  | Seq r1 r2 => match_k r1 s caps (fun s1 c1 => match_k r2 s1 c1 k)
  | Alt r1 r2 =>
      match match_k r1 s caps k with
      | Some x => Some x
      | None => match_k r2 s caps k
      end
  | Star p => star_k p s (fun s1 => k s1 caps)
  | Grp name r1 =>
      match_k r1 s caps
        (fun s1 c1 =>
           k s1 ((name, firstn (List.length s - List.length s1) s) :: c1))
  end.
End Matcher.

(** [pattern.match(s)]: the remaining input and the groups of the first
    match found at the start of [s]. *)
Definition match_ (r : regex) (s : pystr) : option (pystr * captures) :=
  match_k r s [] (fun rest caps => Some (rest, caps)).

(** Number of characters of the match at the start of [s]. *)
Definition match_len (r : regex) (s : pystr) : option nat :=
  match match_ r s with
  | Some (rest, _) => Some (List.length s - List.length rest)
  | None => None
  end.

(** [pattern.search(s).group()]: the leftmost match, [None] without one. *)
Fixpoint search (r : regex) (s : pystr) : option pystr :=
  match match_len r s with
  | Some n => Some (firstn n s)
  | None =>
      match s with
      | [] => None
      | _ :: s' => search r s'
      end
  end.

(** [pattern.sub('', s)]: every leftmost non-overlapping match is removed.
    [skip] counts the characters of the current match still to be dropped;
    an empty match removes nothing. *)
Fixpoint sub_empty (r : regex) (skip : nat) (s : pystr) : pystr :=
  match s with
  | [] => []
  | c :: s' =>
      match skip with
      | S n => sub_empty r n s'
      | O =>
          match match_len r s with
          | Some (S n) => sub_empty r n s'
          | _ => c :: sub_empty r 0 s'
          end
      end
  end.

Definition sub (r : regex) (s : pystr) : pystr := sub_empty r 0 s.

End Re.
Import Re.

(** ** The patterns of the module *)

Definition space : cp := 32%N.
Definition hyphen : cp := 45%N.
Definition middle_dot : cp := 183%N.

(** [[A-Z-]] *)
Definition cls_initials (c : cp) : bool := is_upper_AZ c || (c =? hyphen)%N.
(** [[A-Za-z\s-]] *)
Definition cls_name (c : cp) : bool :=
  is_upper_AZ c || is_lower_az c || is_space c || (c =? hyphen)%N.
(** [[^A-Za-z\s]] *)
Definition cls_not_letter_space (c : cp) : bool :=
  negb (is_upper_AZ c || is_lower_az c || is_space c).

(** [CLEAN_RE = re.compile(r'[^A-Za-z\s]+')] *)
Definition CLEAN_RE : regex := Plus cls_not_letter_space.

(** [by [A-Z-]* [A-Za-z\s-]* ·], shared by the two patterns below *)
Definition attribution : regex :=
  Seq (Lit (py "by "))
      (Seq (Star cls_initials)
           (Seq (Chr space)
                (Seq (Star cls_name) (Lit [space; middle_dot])))).

(** [ATTRIBUTION_RE = re.compile(r'by [A-Z-]* [A-Za-z\s-]* · ')] *)
Definition ATTRIBUTION_RE : regex := Seq attribution (Chr space).

(** [DATE_RE]:
    [(([A-Z][a-z]{2,} [0-9]{1,2},)|(by [A-Z-]* [A-Za-z\s-]* ·)) [0-9]{4}] *)
Definition DATE_RE : regex :=
  Seq (Grp "1"
         (Alt (Grp "2"
                 (Seq (Cls is_upper_AZ)
                      (Seq (Cls is_lower_az)
                           (Seq (Cls is_lower_az)
                                (Seq (Star is_lower_az)
                                     (Seq (Chr space)
                                          (Seq (Cls is_digit_09)
                                               (Seq (Opt (Cls is_digit_09))
                                                    (Chr 44%N)))))))))
              (Grp "3" attribution)))
      (Seq (Chr space)
           (Seq (Cls is_digit_09)
                (Seq (Cls is_digit_09)
                     (Seq (Cls is_digit_09) (Cls is_digit_09))))).

(** ** [datetime.strptime] and [datetime.strftime]

    [_strptime] turns the format into a regular expression
    ([TimeRE.pattern]), compiles it with [IGNORECASE], takes the first match
    at the start of the string, refuses a match that leaves input unread, and
    builds the date from the named groups.  The locale is the C locale: the
    module never calls [setlocale]. *)

Definition a_month : list pystr :=
  map py ["jan"; "feb"; "mar"; "apr"; "may"; "jun";
          "jul"; "aug"; "sep"; "oct"; "nov"; "dec"]%string.

Definition f_month : list pystr :=
  map py ["january"; "february"; "march"; "april"; "may"; "june"; "july";
          "august"; "september"; "october"; "november"; "december"]%string.

(** A literal of an [IGNORECASE] pattern: [x] matches the lower-case pattern
    character [c] when its simple lower case is [c]; dotted and dotless I,
    long s and the Kelvin sign are the code points outside ASCII that fold
    onto an ASCII letter. *)
Definition ignorecase_eq (c x : cp) : bool :=
  (ascii_lower x =? c)%N
  || ((c =? 105)%N && ((x =? 304)%N || (x =? 305)%N))
  || ((c =? 115)%N && (x =? 383)%N)
  || ((c =? 107)%N && (x =? 8490)%N).

Definition ChrI (c : cp) : regex := Cls (ignorecase_eq (ascii_lower c)).

Fixpoint LitI (s : pystr) : regex :=
  match s with
  | [] => Eps
  | [c] => ChrI c
  | c :: s' => Seq (ChrI c) (LitI s')
  end.

Fixpoint alternation (rs : list regex) : regex :=
  match rs with
  | [] => Cls (fun _ => false)
  | [r] => r
  | r :: rs' => Alt r (alternation rs')
  end.

(** [sorted(to_convert, key=len, reverse=True)]: a stable sort, longest
    first. *)
Fixpoint insert_by_len (w : pystr) (ws : list pystr) : list pystr :=
  match ws with
  | [] => [w]
  | v :: ws' =>
      if (List.length v <? List.length w)%nat then w :: ws
      else v :: insert_by_len w ws'
  end.

Definition sorted_by_len (ws : list pystr) : list pystr :=
  fold_right insert_by_len [] ws.

(** [TimeRE.__seqToRE] *)
Definition seqToRE (to_convert : list pystr) (directive : string) : regex :=
  Grp directive (alternation (map LitI (sorted_by_len to_convert))).

Section Strptime.
Variable P : Platform.

(** [3[0-1]|[1-2]\d|0[1-9]|[1-9]| [1-9]] *)
Definition day_re : regex :=
  Alt (Seq (Chr 51%N) (Cls (in_range 48 49)))
 (Alt (Seq (Cls (in_range 49 50)) (Cls (is_decimal P)))
 (Alt (Seq (Chr 48%N) (Cls (in_range 49 57)))
 (Alt (Cls (in_range 49 57))
      (Seq (Chr space) (Cls (in_range 49 57)))))).

(** [\d\d\d\d] *)
Definition year_re : regex :=
  Seq (Cls (is_decimal P))
      (Seq (Cls (is_decimal P))
           (Seq (Cls (is_decimal P)) (Cls (is_decimal P)))).

(** The entries of the [TimeRE] dictionary that the formats of the module
    reach; any other directive is left out of the model and refused. *)
Definition directive_re (d : cp) : option regex :=
  if (d =? 100)%N then Some (Grp "d" day_re)
  else if (d =? 89)%N then Some (Grp "Y" year_re)
  else if (d =? 66)%N then Some (seqToRE f_month "B")
  else if (d =? 98)%N then Some (seqToRE a_month "b")
  else None.

(** [TimeRE.pattern]: a run of white space in the format stands for
    [\s+], [%x] for the expression of the directive [x], and any other
    character for itself.  [in_ws] tells that the previous character of the
    format was white space. *)
Fixpoint pattern (in_ws : bool) (format : pystr) : option regex :=
  match format with
  | [] => Some Eps
  | c :: rest =>
      if is_space c then
        if in_ws then pattern true rest
        else option_map (Seq (Plus is_space)) (pattern true rest)
      else if (c =? 37)%N then
        match rest with
        | d :: rest' =>
            match directive_re d, pattern false rest' with
            | Some r, Some r' => Some (Seq r r')
            | _, _ => None
            end
        | [] => None
        end
      else option_map (Seq (ChrI c)) (pattern false rest)
  end.

Fixpoint int_digits (acc : N) (s : pystr) : option N :=
  match s with
  | [] => Some acc
  | c :: s' =>
      match to_decimal P c with
      | Some d => int_digits (acc * 10 + d)%N s'
      | None => None
      end
  end.

(** [int(s)] on the texts the groups [d] and [Y] can hold: decimal digits
    between optional white space. *)
Definition py_int (s : pystr) : result N :=
  match strip s with
  | [] => Raise
  | t => match int_digits 0 t with Some n => Ok n | None => Raise end
  end.

Fixpoint index_from (i : N) (l : list pystr) (x : pystr) : result N :=
  match l with
  | [] => Raise
  | y :: l' => if pystr_eqb y x then Ok i else index_from (i + 1)%N l' x
  end.

(** [locale_time.a_month.index(x)]; the lists of [LocaleTime] start with
    an empty entry, so that January has index 1. *)
Definition month_index (names : list pystr) (x : pystr) : result N :=
  index_from 0 ([] :: names) x.

Record datetime := { year : N; month : N; day : N }.

Definition is_leap (y : N) : bool :=
  ((y mod 4 =? 0) && (negb (y mod 100 =? 0) || (y mod 400 =? 0)))%N.

Definition days_in_month (y m : N) : N :=
  if (m =? 2)%N then (if is_leap y then 29 else 28)%N
  else if ((m =? 4) || (m =? 6) || (m =? 9) || (m =? 11))%N then 30%N
  else 31%N.

(** The constructor of [datetime.date], which raises [ValueError] outside
    the calendar. *)
Definition datetime_date (y m d : N) : result datetime :=
  if (in_range 1 9999 y && in_range 1 12 m
      && in_range 1 (days_in_month y m) d)%bool
  then Ok {| year := y; month := m; day := d |}
  else Raise.

(** One key of [found_dict]: the fields are year, month and day. *)
Definition found_key (kv : string * pystr) (acc : result (N * N * N))
  : result (N * N * N) :=
  rbind acc (fun '(y, m, d) =>
    let '(key, tok) := kv in
    if String.eqb key "Y" then rbind (py_int tok) (fun y' => Ok (y', m, d))
    else if String.eqb key "B" then
      rbind (month_index f_month (str_lower P tok)) (fun m' => Ok (y, m', d))
    else if String.eqb key "b" then
      rbind (month_index a_month (str_lower P tok)) (fun m' => Ok (y, m', d))
    else if String.eqb key "d" then rbind (py_int tok) (fun d' => Ok (y, m, d'))
    else Ok (y, m, d)).

(** [datetime.strptime(data_string, format)] *)
Definition strptime (data_string format : pystr) : result datetime :=
  match pattern false format with
  | None => Raise
  | Some format_regex =>
      match Re.match_ format_regex data_string with
      | None => Raise
      | Some (rest, found_dict) =>
          match rest with
          | _ :: _ => Raise
          | [] =>
              rbind (fold_right found_key (Ok (1900, 1, 1)%N) found_dict)
                    (fun '(y, m, d) => datetime_date y m d)
          end
      end
  end.

Definition digit (d : N) : cp := (48 + d)%N.

Definition two_digits (n : N) : pystr := [digit (n / 10); digit (n mod 10)].

(** [%Y] *)
Definition format_year (y : N) : pystr :=
  if (1000 <=? y)%N
  then [digit (y / 1000); digit (y / 100 mod 10);
        digit (y / 10 mod 10); digit (y mod 10)]
  else libc_small_year P y.

(** [datetime.strftime(format)] for the directives [%Y], [%m] and [%d];
    any other character is copied. *)
Fixpoint strftime (dt : datetime) (format : pystr) : pystr :=
  match format with
  | [] => []
  | c :: rest =>
      match rest with
      | d :: rest' =>
          if (c =? 37)%N && (d =? 89)%N
          then format_year (year dt) ++ strftime dt rest'
          else if (c =? 37)%N && (d =? 109)%N
          then two_digits (month dt) ++ strftime dt rest'
          else if (c =? 37)%N && (d =? 100)%N
          then two_digits (day dt) ++ strftime dt rest'
          else c :: strftime dt rest
      | [] => [c]
      end
  end.

End Strptime.

(** ** The date canonicalizer and the text cleaner *)

(** The values a page may hand to the text functions. *)
Inductive pyval : Type :=
| PStr (s : pystr)
| PBytes (b : list N)
| PInt (z : Z)
| PNone.

Section Canonicalization.
Variable P : Platform.

(** [text.lower()]: a method of [str] and of [bytes] only. *)
Definition lower (text : pyval) : result pyval :=
  match text with
  | PStr s => Ok (PStr (str_lower P s))
  | PBytes b => Ok (PBytes (map ascii_lower b))
  | PInt _ | PNone => Raise
  end.

(** [CLEAN_RE.sub('', text)]: a [str] pattern refuses anything but [str]. *)
Definition CLEAN_RE_sub (text : pyval) : result pystr :=
  match text with
  | PStr s => Ok (Re.sub CLEAN_RE s)
  | _ => Raise
  end.

(** The body of the [try] of [clean_text]. *)
Definition clean_text_try (text : pyval) : result pystr :=
  rbind (lower text) CLEAN_RE_sub.

Definition clean_text (text : pyval) : pystr :=
  match clean_text_try text with
  | Ok text' => text'
  | Raise => []
  end.

(** The default of the parameter [formats]. *)
Definition default_formats : list pystr :=
  [py "%b %d, %Y"; py "%B %d, %Y"; py "%Y"].

(** The [for] loop of [canonicalization_date]: the first format that
    parses returns, a format that raises is skipped. *)
Fixpoint try_formats (date : pystr) (formats : list pystr) : pystr :=
  match formats with
  | [] => date
  | format :: formats' =>
      match strptime P date format with
      | Ok dt => strftime P dt (py "%Y-%m-%d")
      | Raise => try_formats date formats'
      end
  end.

Definition canonicalization_date (date : pystr) (formats : list pystr)
  : pystr :=
  try_formats (strip (Re.sub ATTRIBUTION_RE date)) formats.

End Canonicalization.

(** ** The browser session

    [Page] holds what the page object answers while one URL is processed;
    the selectors and keys the module uses are enumerated. *)

Inductive selector : Type :=
| SEARCH_FIELD              (* [aria-label="Search"] *)
| I_AGREE_BUTTON            (* button:has-text("I agree") *)
| GOOGLE_MAIN_SELECTOR      (* #main *)
| TOPSTUFF                  (* #topstuff *)
| RSO                       (* #rso *)
| GOOGLE_RESULTS_SELECTOR
| GOOGLE_HREF_SELECTOR.

Inductive key : Type := Control_A | Delete | Enter.

Record Page := {
  page_url : pystr;
  page_title : result pystr;
  page_click : selector -> result unit;
  page_press : selector -> key -> result unit;
  page_type : selector -> pystr -> result unit;
  page_expect_navigation : result unit;
  page_wait_for_timeout : Z -> result unit;
  page_wait_for_selector : selector -> result unit;
  page_inner_text : selector -> result pyval;
  page_eval_on_selector : selector -> result pyval
}.

(** A row of the input data frame with its index label. *)
Record Row := { idx : Z; url_id : pyval; url : pystr }.

(** A data row of the output file. *)
Record ResultRecord := {
  r_url_id : pyval;
  r_url : pystr;
  date_url : pystr;
  dated_url : pyval
}.

(** [PROXY_CONFIG] once loaded: the JSON object of the configuration file. *)
Definition ProxyConfig := list (string * pystr).

Fixpoint lookup (cfg : ProxyConfig) (k : string) : result pystr :=
  match cfg with
  | [] => Raise
  | (k', v) :: cfg' => if String.eqb k' k then Ok v else lookup cfg' k
  end.

(** [if PROXY_CONFIG:] holds for a dictionary that is not empty. *)
Definition truthy (PROXY_CONFIG : option ProxyConfig) : bool :=
  match PROXY_CONFIG with
  | Some (_ :: _) => true
  | _ => false
  end.

(** What the run leaves behind, in order: the calls of
    [page.wait_for_timeout] and the rows appended to the output file. *)
Inductive event : Type :=
| Wait (ms : Z)
| Wrote (r : ResultRecord).

Record state := { output_file : list ResultRecord; trace : list event }.

Definition M (A : Type) : Type := state -> result A * state.

Definition ret {A} (a : A) : M A := fun st => (Ok a, st).

Definition bind {A B} (m : M A) (f : A -> M B) : M B :=
  fun st =>
    match m st with
    | (Ok a, st') => f a st'
    | (Raise, st') => (Raise, st')
    end.

Definition lift {A} (r : result A) : M A := fun st => (r, st).

(** [try: m  except: h] *)
Definition try_except {A} (m : M A) (h : M A) : M A :=
  fun st =>
    match m st with
    | (Ok a, st') => (Ok a, st')
    | (Raise, st') => h st'
    end.

Declare Scope monad_scope.
Delimit Scope monad_scope with monad.
Notation "x <- m ;; k" := (bind m (fun x => k))
  (at level 61, m at next level, right associativity) : monad_scope.
Notation "m ;; k" := (bind m (fun _ => k))
  (at level 61, right associativity) : monad_scope.
Local Open Scope monad_scope.

Definition wait_for_timeout (page : Page) (ms : Z) : M unit :=
  fun st =>
    (page_wait_for_timeout page ms,
     {| output_file := output_file st; trace := trace st ++ [Wait ms] |}).

(** The four ways a query ends, with the pair
    [(first_result_date, first_result_href)] each one stands for. *)
Inductive Outcome : Type :=
| Blocked
| NoResults
| Success (first_result_date : pystr) (first_result_href : pyval)
| Error.

Definition first_result (o : Outcome) : pystr * pyval :=
  match o with
  | Blocked => (py "SCRAPER_DETECTED", PStr (py "SCRAPER_DETECTED"))
  | NoResults => (py "NO_RESULTS", PStr (py "NO_RESULTS"))
  | Success d h => (d, h)
  | Error => (py "ERROR", PStr (py "ERROR"))
  end.

Section Scraper.
Variable P : Platform.

Definition search_on_google (page : Page) (query : pystr) : M unit :=
  lift (page_click page SEARCH_FIELD) ;;
  lift (page_press page SEARCH_FIELD Control_A) ;;
  lift (page_press page SEARCH_FIELD Delete) ;;
  lift (page_type page SEARCH_FIELD query) ;;
  wait_for_timeout page (1 * 1000) ;;
  lift (page_press page SEARCH_FIELD Enter) ;;
  lift (page_expect_navigation page) ;;
  wait_for_timeout page (2 * 1000) ;;
  lift (page_wait_for_selector page GOOGLE_MAIN_SELECTOR).

Definition detected (page : Page) : bool :=
  startswith (page_url page) (py "https://www.google.com/sorry/").

Definition no_results_targets : list pystr :=
  [py "no results found for"; py "did not match any documents"].

Definition nothing_found (page : Page) : result bool :=
  rbind (page_wait_for_selector page TOPSTUFF) (fun _ =>
  rbind (page_inner_text page TOPSTUFF) (fun no_results_top =>
    let no_results_msgs := map (clean_text P) [no_results_top] in
    Ok (existsb (fun no_results_target =>
                   existsb (fun no_results_msg =>
                              (find no_results_msg no_results_target >=? 0)%Z)
                           no_results_msgs)
                no_results_targets))).

(** [DATE_RE.search(text)], which raises on anything but a [str]. *)
Definition DATE_RE_search (text : pyval) : result (option pystr) :=
  match text with
  | PStr s => Ok (Re.search DATE_RE s)
  | _ => Raise
  end.

Definition extract_information_from_results (page : Page)
  : result (pystr * pyval) :=
  rbind (page_wait_for_selector page RSO) (fun _ =>
  rbind (page_inner_text page GOOGLE_RESULTS_SELECTOR)
        (fun first_result_text =>
  rbind (DATE_RE_search first_result_text) (fun first_result_date =>
  rbind (page_eval_on_selector page GOOGLE_HREF_SELECTOR)
        (fun first_result_href =>
    match first_result_date with
    | None => Ok (py "NO_DATE_DETECTED", first_result_href)
    | Some group =>
        Ok (canonicalization_date P group default_formats,
            first_result_href)
    end)))).

Definition waiting_time (PROXY_CONFIG : option ProxyConfig) : Z :=
  if truthy PROXY_CONFIG then 60 else 180.

Definition comply_with_terms_of_use (page : Page)
           (PROXY_CONFIG : option ProxyConfig) : M unit :=
  wait_for_timeout page (waiting_time PROXY_CONFIG * 1000).

Definition write_results (input_data : Row) (output_info : pystr * pyval)
  : M unit :=
  fun st =>
    let r := {| r_url_id := url_id input_data;
                r_url := url input_data;
                date_url := fst output_info;
                dated_url := snd output_info |} in
    (Ok tt, {| output_file := output_file st ++ [r];
               trace := trace st ++ [Wrote r] |}).

(** The two [assert]s of [run_scraper]: the title names the results page
    and the address is not the one of the challenge. *)
Definition results_page_reached (page : Page) : result unit :=
  rbind (page_title page) (fun title =>
    if (find title (py "Google Search") >=? 0)%Z
    then (if detected page then Raise else Ok tt)
    else Raise).

(** The inner [try] of [run_scraper] with its [except] and [else]. *)
Definition classify (page : Page) : M Outcome :=
  match results_page_reached page with
  | Raise =>
      wait_for_timeout page (60 * 60 * 2 * 1000) ;;
      ret Blocked
  | Ok _ =>
      found <- lift (nothing_found page) ;;
      if (found : bool) then ret NoResults
      else
        match extract_information_from_results page with
        | Ok (first_result_date, first_result_href) =>
            ret (Success first_result_date first_result_href)
        | Raise => ret Error
        end
  end.

(** The classification as the loop sees it: what escapes the inner [try]
    is caught by the [except] of the outer one. *)
Definition classifier (page : Page) : M Outcome :=
  try_except (classify page) (ret Error).

(** The body of the outer [try]. *)
Definition query (page : Page) (row : Row) : M Outcome :=
  search_on_google page (url row) ;; classify page.

(** One turn of the loop after the proxy rotation: the outer [try], its
    [except] and its [finally]. *)
Definition process_row (page : Page) (PROXY_CONFIG : option ProxyConfig)
           (row : Row) : M unit :=
  o <- try_except (query page row) (ret Error) ;;
  write_results row (first_result o) ;;
  comply_with_terms_of_use page PROXY_CONFIG.

(** What the world outside the module answers during one run: the browser,
    the rotation endpoint and the two libraries whose answer is not fixed
    by the module.  [tqdm_disable] is the default of the parameter
    [disable] of [tqdm], which is [False] unless the environment sets it
    (the variable TQDM_DISABLE).  [pd_read_table file] is the column [url]
    of the data frame that [pd.read_table] makes of an output file with the
    data rows [file]: one entry for each row it reads, [Some s] where the
    value it reads is the text [s] and [None] where it is anything else
    (the missing value that stands for a text such as NA, or a number);
    [Raise] where the file cannot be parsed. *)
Record Browser := {
  chromium_launch : result unit;
  page_goto : result unit;
  page_before : Page;
  page_during : Row -> Page;
  requests_get : option Row -> pystr -> result pystr;
  eval_PROXY_STATUS : pystr -> result (pystr -> result (bool * pystr));
  page_close : result unit;
  tqdm_disable : bool;
  pd_read_table : list ResultRecord -> result (list (option pystr))
}.

Definition config_of (PROXY_CONFIG : option ProxyConfig) : ProxyConfig :=
  match PROXY_CONFIG with Some c => c | None => [] end.

Definition rotate_proxy (B : Browser) (page : Page)
           (PROXY_CONFIG : option ProxyConfig)
           (proxy_status : pystr -> result (bool * pystr))
           (at_row : option Row) : M unit :=
  let due :=
    match at_row with
    | None => true
    | Some row => negb (idx row =? 0)%Z && (idx row mod 10 =? 0)%Z
    end in
  if due then
    endpoint <- lift (lookup (config_of PROXY_CONFIG) "PROXY_ROTATE") ;;
    proxy_rotate <- lift (requests_get B at_row endpoint) ;;
    wait_for_timeout page (10 * 1000) ;;
    lift (proxy_status proxy_rotate) ;;
    ret tt
  else ret tt.

Definition launch_browser (B : Browser)
           (PROXY_CONFIG : option ProxyConfig) : M unit :=
  (if truthy PROXY_CONFIG then
     lift (lookup (config_of PROXY_CONFIG) "PROXY_ADDRESS") ;;
     lift (lookup (config_of PROXY_CONFIG) "PROXY_PORT") ;;
     lift (lookup (config_of PROXY_CONFIG) "PROXY_USER") ;;
     lift (lookup (config_of PROXY_CONFIG) "PROXY_PASSWORD") ;;
     ret tt
   else ret tt) ;;
  lift (chromium_launch B).

Definition accept_cookies (page : Page) : M unit :=
  try_except (lift (page_click page I_AGREE_BUTTON)) (ret tt).

(** The parameters of [tqdm.__init__]. *)
Definition tqdm_parameters : list string :=
  ["iterable"; "desc"; "total"; "leave"; "file"; "ncols"; "mininterval";
   "maxinterval"; "miniters"; "ascii"; "disable"; "unit"; "unit_scale";
   "dynamic_ncols"; "smoothing"; "bar_format"; "initial"; "position";
   "postfix"; "unit_divisor"; "write_bytes"; "lock_args"; "nrows";
   "colour"; "delay"; "gui"]%string.

(** [tqdm(iterable, **kwargs)]: a disabled bar hands the iterable on
    whatever its keywords; otherwise a keyword that is not a parameter of
    [tqdm] raises [TqdmKeyError] when the bar is made, before anything is
    taken from the iterable. *)
Definition tqdm {A} (disable : bool) (kwargs : list string)
           (iterable : list A) : result (list A) :=
  if disable then Ok iterable
  else if forallb (fun k => existsb (String.eqb k) tqdm_parameters) kwargs
       then Ok iterable
       else Raise.

(** The turns of the [for] loop of [run_scraper], one for each row the
    progress bar hands on. *)
Fixpoint for_each_row (B : Browser) (PROXY_CONFIG : option ProxyConfig)
         (proxy_status : pystr -> result (bool * pystr))
         (rows : list Row) : M unit :=
  match rows with
  | [] => ret tt
  | row :: rows' =>
      (if truthy PROXY_CONFIG
       then rotate_proxy B (page_during B row) PROXY_CONFIG proxy_status
                         (Some row)
       else ret tt) ;;
      process_row (page_during B row) PROXY_CONFIG row ;;
      for_each_row B PROXY_CONFIG proxy_status rows'
  end.

(** The [for] loop of [run_scraper] with its header
    [tqdm(data.iterrows(), tot = len(data))]. *)
Definition loop (B : Browser) (PROXY_CONFIG : option ProxyConfig)
           (proxy_status : pystr -> result (bool * pystr))
           (data : list Row) : M unit :=
  rows <- lift (tqdm (tqdm_disable B) ["tot"%string] data) ;;
  for_each_row B PROXY_CONFIG proxy_status rows.

(** [run_scraper] before its loop: the browser is launched, the proxy is
    started when one is in use, the search page is opened and the cookie
    prompt is dismissed. *)
Definition start_session (B : Browser) (PROXY_CONFIG : option ProxyConfig)
  : M (pystr -> result (bool * pystr)) :=
  launch_browser B PROXY_CONFIG ;;
  proxy_status <-
    (if truthy PROXY_CONFIG then
       source <- lift (lookup (config_of PROXY_CONFIG) "PROXY_STATUS") ;;
       proxy_status <- lift (eval_PROXY_STATUS B source) ;;
       rotate_proxy B (page_before B) PROXY_CONFIG proxy_status None ;;
       ret proxy_status
     else ret (fun _ => Raise)) ;;
  lift (page_goto B) ;;
  accept_cookies (page_before B) ;;
  ret proxy_status.

Definition run_scraper (B : Browser) (data : list Row)
           (PROXY_CONFIG : option ProxyConfig) : M unit :=
  proxy_status <- start_session B PROXY_CONFIG ;;
  loop B PROXY_CONFIG proxy_status data ;;
  lift (page_close B).

(** [df['url'].isin(df_bak['url'])] for one row of [df]: the url of the
    row is one of the values read from the file. *)
Definition isin (u : pystr) (df_bak_url : list (option pystr)) : bool :=
  existsb (fun v => match v with
                    | Some s => pystr_eqb u s
                    | None => false
                    end) df_bak_url.

(** The rows [main] hands to [run_scraper]: all of them when the output
    file is new or [pd.read_table] reads no data row from it, otherwise
    those whose [url] is not among the values read from the file. *)
Definition pending (B : Browser) (df : list Row)
           (output : option (list ResultRecord)) : result (list Row) :=
  match output with
  | None => Ok df
  | Some file =>
      rbind (pd_read_table B file) (fun df_bak_url =>
        if (0 <? List.length df_bak_url)%nat
        then Ok (filter (fun row => negb (isin (url row) df_bak_url)) df)
        else Ok df)
  end.

(** [main]: [output] is the output file before the run, [None] when it
    does not exist and otherwise its data rows below the header;
    [proxy_conf] is the result of loading the proxy configuration. *)
Definition main (B : Browser) (df : list Row)
           (output : option (list ResultRecord))
           (proxy_conf : result ProxyConfig) : result unit * state :=
  let file := match output with Some rows => rows | None => [] end in
  let PROXY_CONFIG :=
    match proxy_conf with Ok c => Some c | Raise => None end in
  match pending B df output with
  | Ok df' =>
      run_scraper B df' PROXY_CONFIG {| output_file := file; trace := [] |}
  | Raise => (Raise, {| output_file := file; trace := [] |})
  end.

End Scraper.

(** ** Concrete inputs

    A platform whose tables are cut down to ASCII and whose C library leaves
    a small year unpadded; the concrete runs below read text on which the cut
    makes no difference. *)

Definition small_year (y : N) : pystr :=
  if (100 <=? y)%N
  then [digit (y / 100); digit (y / 10 mod 10); digit (y mod 10)]
  else if (10 <=? y)%N then [digit (y / 10); digit (y mod 10)]
  else [digit y].

Definition ascii_platform : Platform :=
  {| unicode_decimal := fun _ => None;
     unicode_lower := fun s => s;
     libc_small_year := small_year |}.

(** The row written for [row] when its query ends with [o]. *)
Definition record (row : Row) (o : Outcome) : ResultRecord :=
  {| r_url_id := url_id row;
     r_url := url row;
     date_url := fst (first_result o);
     dated_url := snd (first_result o) |}.

Definition cooldown : Z := 60 * 60 * 2 * 1000.

(** [quiet m]: [m] writes no row; it only adds waits to the trace. *)
Definition quiet {A} (m : M A) : Prop :=
  forall st, exists mid,
    trace (snd (m st)) = trace st ++ mid /\
    output_file (snd (m st)) = output_file st.

(** *** Pages, rows and sessions used in the examples *)

Definition results_page : Page :=
  {| page_url := py "https://www.google.com/search?q=a.example";
     page_title := Ok (py "a.example - Google Search");
     page_click := fun _ => Ok tt;
     page_press := fun _ _ => Ok tt;
     page_type := fun _ _ => Ok tt;
     page_expect_navigation := Ok tt;
     page_wait_for_timeout := fun _ => Ok tt;
     page_wait_for_selector := fun _ => Ok tt;
     page_inner_text := fun sel =>
       match sel with
       | TOPSTUFF => Ok (PStr [])
       | _ => Ok (PStr (py "A page - a.example Jun 10, 2010 - Some text"))
       end;
     page_eval_on_selector := fun _ => Ok (PStr (py "https://a.example/")) |}.

(** The page of the abuse challenge. *)
Definition sorry_page : Page :=
  {| page_url := py "https://www.google.com/sorry/index?continue=x";
     page_title := Ok (py "https://www.google.com/search?q=a.example");
     page_click := fun _ => Ok tt;
     page_press := fun _ _ => Ok tt;
     page_type := fun _ _ => Ok tt;
     page_expect_navigation := Ok tt;
     page_wait_for_timeout := fun _ => Ok tt;
     page_wait_for_selector := fun _ => Ok tt;
     page_inner_text := fun _ => Raise;
     page_eval_on_selector := fun _ => Raise |}.

(** A page of the search engine that is not the challenge and whose title
    does not name the results page. *)
Definition untitled_page : Page :=
  {| page_url := py "https://www.google.com/search?q=a.example";
     page_title := Ok (py "Error 502 (Server Error)");
     page_click := fun _ => Ok tt;
     page_press := fun _ _ => Ok tt;
     page_type := fun _ _ => Ok tt;
     page_expect_navigation := Ok tt;
     page_wait_for_timeout := fun _ => Ok tt;
     page_wait_for_selector := fun _ => Ok tt;
     page_inner_text := fun _ => Ok (PStr []);
     page_eval_on_selector := fun _ => Ok (PStr []) |}.

(** A results page whose status region hands over something that is not
    text. *)
Definition odd_page : Page :=
  {| page_url := page_url results_page;
     page_title := page_title results_page;
     page_click := fun _ => Ok tt;
     page_press := fun _ _ => Ok tt;
     page_type := fun _ _ => Ok tt;
     page_expect_navigation := Ok tt;
     page_wait_for_timeout := fun _ => Ok tt;
     page_wait_for_selector := fun _ => Ok tt;
     page_inner_text := fun _ => Ok PNone;
     page_eval_on_selector := fun _ => Ok (PStr []) |}.

Definition row_a : Row :=
  {| idx := 0; url_id := PInt 1; url := py "https://a.example" |}.
Definition row_a' : Row :=
  {| idx := 1; url_id := PInt 2; url := py "https://a.example" |}.
Definition row_b : Row :=
  {| idx := 10; url_id := PInt 11; url := py "https://b.example" |}.

Definition st0 : state := {| output_file := []; trace := [] |}.

(** The texts that [pd.read_table] takes for a missing value. *)
Definition na_values : list pystr :=
  [[]; py "#N/A"; py "#N/A N/A"; py "#NA"; py "-1.#IND"; py "-1.#QNAN";
   py "-NaN"; py "-nan"; py "1.#IND"; py "1.#QNAN"; py "<NA>"; py "N/A";
   py "NA"; py "NULL"; py "NaN"; py "None"; py "n/a"; py "nan"; py "null"].

(** What [pd.read_table] reads in the examples: a url that is one of the
    missing-value texts is read as a missing value, the other urls of the
    examples are read as they were written. *)
Definition read_urls (file : list ResultRecord)
  : result (list (option pystr)) :=
  Ok (map (fun r => if existsb (pystr_eqb (r_url r)) na_values
                    then None else Some (r_url r)) file).

(** A row whose url is the text NA. *)
Definition row_na : Row :=
  {| idx := 0; url_id := PInt 1; url := py "NA" |}.

(** A session in which every page is [results_page], the rotation
    endpoint answers at the start of the run only and the progress bar is
    disabled. *)
Definition flaky_rotation : Browser :=
  {| chromium_launch := Ok tt;
     page_goto := Ok tt;
     page_before := results_page;
     page_during := fun _ => results_page;
     requests_get := fun at_row _ =>
       match at_row with None => Ok (py "ok") | Some _ => Raise end;
     eval_PROXY_STATUS := fun _ => Ok (fun text => Ok (true, text));
     page_close := Ok tt;
     tqdm_disable := true;
     pd_read_table := read_urls |}.

Definition proxy_conf : ProxyConfig :=
  [("PROXY_ADDRESS", py "http://proxy.example");
   ("PROXY_PORT", py "8080");
   ("PROXY_USER", py "user");
   ("PROXY_PASSWORD", py "secret");
   ("PROXY_ROTATE", py "http://proxy.example/rotate");
   ("PROXY_STATUS", py "lambda text: (True, text)")]%string.

Definition is_cooldown (e : event) : bool :=
  match e with Wait ms => (ms =? cooldown)%Z | Wrote _ => false end.

Definition is_write (e : event) : bool :=
  match e with Wrote _ => true | Wait _ => false end.

Fixpoint position (p : event -> bool) (l : list event) : option nat :=
  match l with
  | [] => None
  | e :: l' => if p e then Some 0%nat else option_map S (position p l')
  end.

(** The first [a] of the trace comes before the first [b]. *)
Definition precedes (a b : event -> bool) (l : list event) : bool :=
  match position a l, position b l with
  | Some i, Some j => (i <? j)%nat
  | _, _ => false
  end.

(** A session without proxy trouble: every call of the browser and of the
    rotation endpoint returns; the progress bar is not disabled. *)
Definition steady_session : Browser :=
  {| chromium_launch := Ok tt;
     page_goto := Ok tt;
     page_before := results_page;
     page_during := fun _ => results_page;
     requests_get := fun _ _ => Ok (py "ok");
     eval_PROXY_STATUS := fun _ => Ok (fun text => Ok (true, text));
     page_close := Ok tt;
     tqdm_disable := false;
     pd_read_table := read_urls |}.

(** The same session in an environment that disables the progress bar. *)
Definition disabled_bar_session : Browser :=
  {| chromium_launch := Ok tt;
     page_goto := Ok tt;
     page_before := results_page;
     page_during := fun _ => results_page;
     requests_get := fun _ _ => Ok (py "ok");
     eval_PROXY_STATUS := fun _ => Ok (fun text => Ok (true, text));
     page_close := Ok tt;
     tqdm_disable := true;
     pd_read_table := read_urls |}.

(** The data rows of an output file, none when the file does not exist. *)
Definition rows_of (output : option (list ResultRecord))
  : list ResultRecord :=
  match output with Some rows => rows | None => [] end.

(** The output file after two runs of [main] on the same input, the second
    run starting from the file the first one left. *)
Definition run_twice (P : Platform) (B1 B2 : Browser) (df : list Row)
           (output : option (list ResultRecord))
           (conf1 conf2 : result ProxyConfig) : list ResultRecord :=
  let after1 := output_file (snd (main P B1 df output conf1)) in
  output_file (snd (main P B2 df (Some after1) conf2)).

(** *** The reference canonicalizer

    The canonicalizer in the words of the specification: after the
    attribution is stripped and the text trimmed, the formats are tried in
    the order full month-day-year, abbreviated month-day-year, year-only;
    the first successful parse is returned reformatted as year-month-day,
    and the stripped text is returned when no format parses. *)




(** *** Notions used in the proofs about the matcher *)

(** [w] is, letter case aside, a prefix of [s]. *)
Fixpoint ci_prefix (w s : pystr) : bool :=
  match w with
  | [] => true
  | c :: w' =>
      match s with
      | x :: s' => ignorecase_eq (ascii_lower c) x && ci_prefix w' s'
      | [] => false
      end
  end.

Fixpoint first_some {X A : Type} (f : X -> option A) (l : list X)
  : option A :=
  match l with
  | [] => None
  | x :: l' => match f x with Some a => Some a | None => first_some f l' end
  end.

Definition accept (rest : pystr) (caps : Re.captures)
  : option (pystr * Re.captures) := Some (rest, caps).

(** What follows the name of the month in the two formats with a day. *)
Definition day_year_re (P : Platform) : regex :=
  Seq (Plus is_space)
      (Seq (Grp "d" (day_re P))
           (Seq (ChrI 44%N)
                (Seq (Plus is_space) (Seq (Grp "Y" (year_re P)) Eps)))).

(** *** What a pattern denotes

    [denotes r m]: the text [m] is one of the texts the pattern [r] stands
    for, whatever the order in which the matcher tries them. *)
Fixpoint denotes (r : regex) (m : pystr) : Prop :=
  match r with
  | Eps => m = []
  | Cls p => exists c, m = [c] /\ p c = true
  | Seq r1 r2 =>
      exists m1 m2, m = m1 ++ m2 /\ denotes r1 m1 /\ denotes r2 m2
  | Alt r1 r2 => denotes r1 m \/ denotes r2 m
  | Star p => forallb p m = true
  | Grp _ r1 => denotes r1 m
  end.

(** The number of characters of the class [p] at the head of [s]. *)
Fixpoint span_len (p : cp -> bool) (s : pystr) : nat :=
  match s with
  | c :: s' => if p c then S (span_len p s') else 0%nat
  | [] => 0%nat
  end.

(** [[A-Za-z\s]] *)
Definition letter_or_space (c : cp) : bool :=
  is_upper_AZ c || is_lower_az c || is_space c.

(** A results page whose status region reports that nothing was found. *)
Definition no_results_page : Page :=
  {| page_url := page_url results_page;
     page_title := page_title results_page;
     page_click := fun _ => Ok tt;
     page_press := fun _ _ => Ok tt;
     page_type := fun _ _ => Ok tt;
     page_expect_navigation := Ok tt;
     page_wait_for_timeout := fun _ => Ok tt;
     page_wait_for_selector := fun _ => Ok tt;
     page_inner_text := fun _ =>
       Ok (PStr (py "No results found for 'a.example'."));
     page_eval_on_selector := fun _ => Raise |}.

(** *** The two shapes of a date found in a result text *)

(** A capitalised word of three letters or more, a blank, one or two
    digits and a comma. *)
Definition month_day_shape (pre : pystr) : Prop :=
  exists u ls day,
    pre = u :: ls ++ [space] ++ day ++ [44%N]
    /\ is_upper_AZ u = true
    /\ (2 <= List.length ls)%nat /\ forallb is_lower_az ls = true
    /\ (1 <= List.length day <= 2)%nat /\ forallb is_digit_09 day = true.

(** The word "by", initials, a name and a middle dot, with blanks
    between them. *)
Definition attribution_shape (pre : pystr) : Prop :=
  exists initials name,
    pre = py "by " ++ initials ++ [space] ++ name ++ [space; middle_dot]
    /\ forallb cls_initials initials = true
    /\ forallb cls_name name = true.

(** A results page whose first result carries no date. *)
Definition undated_page : Page :=
  {| page_url := page_url results_page;
     page_title := page_title results_page;
     page_click := fun _ => Ok tt;
     page_press := fun _ _ => Ok tt;
     page_type := fun _ _ => Ok tt;
     page_expect_navigation := Ok tt;
     page_wait_for_timeout := fun _ => Ok tt;
     page_wait_for_selector := fun _ => Ok tt;
     page_inner_text := fun sel =>
       match sel with
       | TOPSTUFF => Ok (PStr [])
       | _ => Ok (PStr (py "A page - a.example - Some text"))
       end;
     page_eval_on_selector := fun _ => Ok (PStr (py "https://a.example/")) |}.

(** *** Notions used in the properties of whole runs *)

Definition any_wait (e : event) : bool :=
  match e with Wait _ => true | Wrote _ => false end.

(** [emits Q m]: [m] writes no row and adds to the trace events of [Q]
    only. *)
Definition emits {A} (Q : event -> bool) (m : M A) : Prop :=
  forall st, exists mid,
    trace (snd (m st)) = trace st ++ mid
    /\ forallb Q mid = true
    /\ output_file (snd (m st)) = output_file st.

(** Every write of the trace is followed at once by a wait of [ms]
    milliseconds. *)
Fixpoint writes_then_wait (ms : Z) (l : list event) : bool :=
  match l with
  | [] => true
  | Wrote _ :: rest =>
      match rest with
      | Wait n :: _ => (n =? ms)%Z && writes_then_wait ms rest
      | _ => false
      end
  | Wait _ :: rest => writes_then_wait ms rest
  end.

(** The rows at which the loop rotates the proxy. *)
Definition rotation_due (row : Row) : bool :=
  negb (idx row =? 0)%Z && (idx row mod 10 =? 0)%Z.

Definition is_rotation_wait (e : event) : bool :=
  match e with Wait ms => (ms =? 10 * 1000)%Z | Wrote _ => false end.

(** A page on which nothing can be clicked. *)
Definition dead_page : Page :=
  {| page_url := [];
     page_title := Raise;
     page_click := fun _ => Raise;
     page_press := fun _ _ => Raise;
     page_type := fun _ _ => Raise;
     page_expect_navigation := Raise;
     page_wait_for_timeout := fun _ => Ok tt;
     page_wait_for_selector := fun _ => Raise;
     page_inner_text := fun _ => Raise;
     page_eval_on_selector := fun _ => Raise |}.

Definition row_20 : Row :=
  {| idx := 20; url_id := PInt 21; url := py "https://c.example" |}.

(** The events of a query: the two waits of the submission and the
    cooldown. *)
Definition query_event (e : event) : bool :=
  match e with
  | Wait ms => (ms =? 1000)%Z || (ms =? 2000)%Z || (ms =? cooldown)%Z
  | Wrote _ => false
  end.

(** The keys [run_scraper] reads from a proxy configuration before its
    loop. *)
Definition proxy_keys : list string :=
  ["PROXY_ADDRESS"; "PROXY_PORT"; "PROXY_USER"; "PROXY_PASSWORD";
   "PROXY_STATUS"; "PROXY_ROTATE"]%string.

(** A session whose cookie prompt cannot be clicked. *)
Definition no_prompt_session : Browser :=
  {| chromium_launch := Ok tt;
     page_goto := Ok tt;
     page_before := dead_page;
     page_during := fun _ => results_page;
     requests_get := fun _ _ => Raise;
     eval_PROXY_STATUS := fun _ => Raise;
     page_close := Ok tt;
     tqdm_disable := false;
     pd_read_table := read_urls |}.

(** [pd.read_table] reads the urls of [file] back as they were written,
    one for each data row. *)
Definition reads_urls_back (B : Browser) (file : list ResultRecord) : Prop :=
  pd_read_table B file = Ok (map (fun r => Some (r_url r)) file).

Create HintDb quiet.

(** * Properties *)

Section MonadFacts.
Context {A B : Type}.

Lemma quiet_ret (a : A) : quiet (ret a).
Proof. intros st. exists []. simpl. now rewrite app_nil_r. Qed.

Lemma quiet_lift (r : result A) : quiet (lift r).
Proof. intros st. exists []. simpl. now rewrite app_nil_r. Qed.

Lemma quiet_bind (m : M A) (f : A -> M B) :
  quiet m -> (forall a, quiet (f a)) -> quiet (bind m f).
Proof.
  intros Hm Hf st. unfold bind.
  destruct (Hm st) as (mid & Ht & Ho).
  destruct (m st) as [[a|] st1]; simpl in *.
  - destruct (Hf a st1) as (mid' & Ht' & Ho').
    exists (mid ++ mid'). rewrite Ht', Ho', Ht, Ho, app_assoc. auto.
  - exists mid. auto.
Qed.

Lemma quiet_try_except (m h : M A) :
  quiet m -> quiet h -> quiet (try_except m h).
Proof.
  intros Hm Hh st. unfold try_except.
  destruct (Hm st) as (mid & Ht & Ho).
  destruct (m st) as [[a|] st1]; simpl in *.
  - exists mid. auto.
  - destruct (Hh st1) as (mid' & Ht' & Ho').
    exists (mid ++ mid'). rewrite Ht', Ho', Ht, Ho, app_assoc. auto.
Qed.
End MonadFacts.

Lemma quiet_wait page ms : quiet (wait_for_timeout page ms).
Proof. intros st. exists [Wait ms]. simpl. auto. Qed.

#[local] Hint Resolve quiet_ret quiet_lift quiet_wait : quiet.

Ltac quiet_tac :=
  repeat first
    [ apply quiet_bind; [| intros ? ]
    | apply quiet_try_except
    | solve [ auto with quiet ] ].

Section ScraperFacts.
Variable P : Platform.

Lemma quiet_search page q : quiet (search_on_google page q).
Proof. unfold search_on_google. quiet_tac. Qed.

Lemma quiet_classify page : quiet (classify P page).
Proof.
  unfold classify. destruct (results_page_reached page).
  - quiet_tac. destruct a0; [auto with quiet|].
    destruct (extract_information_from_results P page) as [[d h]|];
      auto with quiet.
  - quiet_tac.
Qed.

Lemma quiet_query page row : quiet (query P page row).
Proof.
  unfold query. apply quiet_bind; [apply quiet_search|].
  intros _. apply quiet_classify.
Qed.

Lemma quiet_rotate_proxy B page cfg ps at_row :
  quiet (rotate_proxy B page cfg ps at_row).
Proof.
  unfold rotate_proxy.
  match goal with |- quiet (if ?b then _ else _) => destruct b end;
    quiet_tac.
Qed.

(** One turn of the loop always ends with the write and the rate-limit
    wait, whose result is the result of the turn. *)
Lemma process_row_spec page cfg row st :
  exists o mid,
    fst (try_except (query P page row) (ret Error) st) = Ok o /\
    process_row P page cfg row st =
      (page_wait_for_timeout page (waiting_time cfg * 1000),
       {| output_file := output_file st ++ [record row o];
          trace := trace st ++ mid
                   ++ [Wrote (record row o);
                       Wait (waiting_time cfg * 1000)] |}).
Proof.
  unfold process_row, bind, try_except.
  destruct (quiet_query page row st) as (mid & Ht & Ho).
  destruct (query P page row st) as [[o|] st1]; simpl in *.
  - exists o, mid. split; [reflexivity|].
    unfold comply_with_terms_of_use, wait_for_timeout. simpl.
    rewrite Ht, Ho, <- !app_assoc. reflexivity.
  - exists Error, mid. split; [reflexivity|].
    unfold comply_with_terms_of_use, wait_for_timeout. simpl.
    rewrite Ht, Ho, <- !app_assoc. reflexivity.
Qed.

End ScraperFacts.

Section RunFacts.
Variable P : Platform.

Lemma quiet_start_session B cfg : quiet (start_session B cfg).
Proof.
  unfold start_session, launch_browser, accept_cookies.
  destruct (truthy cfg); quiet_tac; apply quiet_rotate_proxy.
Qed.

(** Whatever happens, the rows a loop appends belong, in order, to the
    first rows of its data. *)
Lemma for_each_row_appends B cfg ps data : forall st,
  exists n outcomes,
    List.length outcomes = List.length (firstn n data) /\
    output_file (snd (for_each_row P B cfg ps data st)) =
      output_file st
      ++ map (fun ro => record (fst ro) (snd ro))
             (combine (firstn n data) outcomes).
Proof.
  induction data as [|row data' IH]; intros st.
  - exists 0%nat, []. simpl. now rewrite app_nil_r.
  - simpl for_each_row. unfold bind at 1.
    assert (Hq : quiet (if truthy cfg
                        then rotate_proxy B (page_during B row) cfg ps
                                          (Some row)
                        else ret tt))
      by (destruct (truthy cfg); [apply quiet_rotate_proxy|apply quiet_ret]).
    destruct (Hq st) as (mid0 & _ & Ho0). clear Hq.
    revert Ho0.
    generalize ((if truthy cfg
                 then rotate_proxy B (page_during B row) cfg ps (Some row)
                 else ret tt) st).
    intros [[[]|] st1] Ho0; simpl in Ho0.
    + unfold bind at 1.
      destruct (process_row_spec P (page_during B row) cfg row st1)
        as (o & mid & _ & E).
      rewrite E.
      destruct (page_wait_for_timeout (page_during B row)
                  (waiting_time cfg * 1000)) as [[]|].
      * match goal with |- context [for_each_row P B cfg ps data' ?s] =>
          destruct (IH s) as (n & os & Hl & Hout) end.
        exists (S n), (o :: os). split; [simpl; now rewrite Hl|].
        rewrite Hout. simpl. rewrite Ho0, <- app_assoc. reflexivity.
      * exists 1%nat, [o]. simpl. split; [reflexivity|].
        rewrite Ho0. reflexivity.
    + exists 0%nat, []. simpl. rewrite Ho0, app_nil_r. auto.
Qed.

(** A loop whose rotations and rate-limit waits return appends one row per
    input row. *)
Lemma for_each_row_complete B cfg ps data : forall st,
  (forall row, In row data ->
     (truthy cfg = true ->
      forall s, fst (rotate_proxy B (page_during B row) cfg ps
                                  (Some row) s) = Ok tt) /\
     page_wait_for_timeout (page_during B row) (waiting_time cfg * 1000)
     = Ok tt) ->
  exists outcomes,
    List.length outcomes = List.length data /\
    fst (for_each_row P B cfg ps data st) = Ok tt /\
    output_file (snd (for_each_row P B cfg ps data st)) =
      output_file st
      ++ map (fun ro => record (fst ro) (snd ro)) (combine data outcomes).
Proof.
  induction data as [|row data' IH]; intros st H.
  - exists []. simpl. now rewrite app_nil_r.
  - destruct (H row (or_introl eq_refl)) as [Hrot Hwait].
    assert (E0 : exists st1,
               (if truthy cfg
                then rotate_proxy B (page_during B row) cfg ps (Some row)
                else ret tt) st = (Ok tt, st1) /\
               output_file st1 = output_file st).
    { destruct (truthy cfg) eqn:Et.
      - specialize (Hrot eq_refl st).
        destruct (quiet_rotate_proxy B (page_during B row) cfg ps
                                     (Some row) st) as (m & _ & Ho).
        destruct (rotate_proxy B (page_during B row) cfg ps (Some row) st)
          as [r st1]. simpl in *. subst r. eauto.
      - exists st. auto. }
    destruct E0 as (st1 & E0 & Ho0).
    destruct (process_row_spec P (page_during B row) cfg row st1)
      as (o & mid & _ & E).
    assert (EL : for_each_row P B cfg ps (row :: data') st =
                 for_each_row P B cfg ps data' (snd (process_row P (page_during B row) cfg row st1))).
    { simpl for_each_row. unfold bind at 1. rewrite E0. unfold bind at 1.
      rewrite E, Hwait. reflexivity. }
    rewrite EL, E. simpl snd.
    match goal with |- context [for_each_row P B cfg ps data' ?s] =>
      destruct (IH s) as (os & Hl & Hr & Hout) end.
    { intros r Hr. apply H. now right. }
    exists (o :: os). split; [simpl; now rewrite Hl|].
    split; [exact Hr|].
    rewrite Hout. simpl. rewrite Ho0, <- app_assoc. reflexivity.
Qed.

(** The keyword [tot] is not a parameter of [tqdm]; [total] is. *)
Lemma tqdm_tot_raises {A} (data : list A) :
  tqdm false ["tot"%string] data = Raise
  /\ tqdm false ["total"%string] data = Ok data.
Proof. split; reflexivity. Qed.

(** With the bar enabled the loop raises at its header. *)
Lemma loop_with_bar B cfg ps data st :
  tqdm_disable B = false -> loop P B cfg ps data st = (Raise, st).
Proof. intros E. unfold loop, bind, lift. rewrite E. reflexivity. Qed.

(** With the bar disabled the loop takes its turns. *)
Lemma loop_without_bar B cfg ps data st :
  tqdm_disable B = true ->
  loop P B cfg ps data st = for_each_row P B cfg ps data st.
Proof. intros E. unfold loop, bind, lift. rewrite E. reflexivity. Qed.

Lemma loop_appends B cfg ps data st :
  exists n outcomes,
    List.length outcomes = List.length (firstn n data) /\
    output_file (snd (loop P B cfg ps data st)) =
      output_file st
      ++ map (fun ro => record (fst ro) (snd ro))
             (combine (firstn n data) outcomes).
Proof.
  destruct (tqdm_disable B) eqn:E.
  - rewrite (loop_without_bar B cfg ps data st E).
    apply for_each_row_appends.
  - rewrite (loop_with_bar B cfg ps data st E).
    exists 0%nat, []. simpl. now rewrite app_nil_r.
Qed.

End RunFacts.

(** ** The loop of [run_scraper] *)

(** C1: as the module calls [tqdm], with the keyword [tot] where the
    parameter is [total], a run in which the bar is not disabled raises and
    leaves the output file as it was, whatever the rows: once the session
    has started, the header of the loop raises before the first row is
    taken, so that no pending row gets its record. *)
Theorem unknown_keyword_of_the_progress_bar_stops_the_run
        (P : Platform) (B : Browser) (data : list Row)
        (cfg : option ProxyConfig) (st : state) :
  tqdm_disable B = false ->
  fst (run_scraper P B data cfg st) = Raise
  /\ output_file (snd (run_scraper P B data cfg st)) = output_file st
  /\ forall ps st1,
       start_session B cfg st = (Ok ps, st1) ->
       run_scraper P B data cfg st = (Raise, st1).
Proof.
  intros E.
  destruct (quiet_start_session B cfg st) as (mid & _ & Ho).
  unfold run_scraper, bind.
  destruct (start_session B cfg st) as [[ps|] st1]; simpl in Ho.
  - rewrite (loop_with_bar P B cfg ps data st1 E). simpl.
    split; [reflexivity|]. split; [exact Ho|].
    intros ps' st1' H. injection H as _ <-. reflexivity.
  - simpl. split; [reflexivity|]. split; [exact Ho|].
    intros ps' st1' H. discriminate H.
Qed.

Lemma unknown_keyword_of_the_progress_bar_stops_the_run_witness :
  fst (run_scraper ascii_platform steady_session [row_a; row_b] None st0)
  = Raise
  /\ output_file
       (snd (run_scraper ascii_platform steady_session [row_a; row_b] None
                         st0))
     = output_file st0
  /\ forall ps st1,
       start_session steady_session None st0 = (Ok ps, st1) ->
       run_scraper ascii_platform steady_session [row_a; row_b] None st0
       = (Raise, st1).
Proof.
  apply (@unknown_keyword_of_the_progress_bar_stops_the_run ascii_platform
           steady_session [row_a; row_b] None st0).
  reflexivity.
Defined.

(** With the bar disabled, a rotation of the proxy that fails at the row
    with index 10 ends the run there: the rotation is outside the [try] of
    the loop, and the row gets no record. *)
Lemma rotation_failure_leaves_row_unrecorded :
  run_scraper ascii_platform flaky_rotation [row_b] (Some proxy_conf) st0
  = (Raise, {| output_file := []; trace := [Wait 10000] |}).
Proof. vm_compute. reflexivity. Qed.

(** X17: in an environment that disables the progress bar, a run whose
    session starts and in which, for every row, the proxy rotation (where a
    proxy is in use) and the rate-limit wait return, appends exactly one
    record per row, in the order of the rows, each record carrying the
    identifier and the url of its row, whatever the query of the row did:
    any classification branch, and any failure of the query submission, of
    the classification or of the extraction. *)
Theorem disabled_bar_gives_one_record_per_row
        (P : Platform) (B : Browser) (cfg : option ProxyConfig)
        (data : list Row) (st st1 : state)
        (ps : pystr -> result (bool * pystr)) :
  tqdm_disable B = true ->
  start_session B cfg st = (Ok ps, st1) ->
  (forall row, In row data ->
     (truthy cfg = true ->
      forall s, fst (rotate_proxy B (page_during B row) cfg ps (Some row) s)
                = Ok tt) /\
     page_wait_for_timeout (page_during B row) (waiting_time cfg * 1000)
     = Ok tt) ->
  exists outcomes,
    List.length outcomes = List.length data /\
    output_file (snd (run_scraper P B data cfg st)) =
      output_file st
      ++ map (fun ro => record (fst ro) (snd ro)) (combine data outcomes).
Proof.
  intros Hbar Hstart Hrows.
  destruct (quiet_start_session B cfg st) as (mid & _ & Ho).
  rewrite Hstart in Ho. simpl in Ho.
  destruct (for_each_row_complete P B cfg ps data st1 Hrows)
    as (os & Hl & Hr & Hout).
  exists os. split; [exact Hl|].
  unfold run_scraper, bind. rewrite Hstart.
  rewrite (loop_without_bar P B cfg ps data st1 Hbar).
  destruct (for_each_row P B cfg ps data st1) as [r st2]. simpl in *. subst r.
  simpl. rewrite Hout, Ho. reflexivity.
Qed.

Lemma disabled_bar_gives_one_record_per_row_witness :
  exists outcomes,
    List.length outcomes = List.length [row_a; row_b] /\
    output_file
      (snd (run_scraper ascii_platform disabled_bar_session [row_a; row_b]
                        None st0)) =
      output_file st0
      ++ map (fun ro => record (fst ro) (snd ro))
             (combine [row_a; row_b] outcomes).
Proof.
  eapply (@disabled_bar_gives_one_record_per_row ascii_platform
            disabled_bar_session None [row_a; row_b] st0).
  - reflexivity.
  - reflexivity.
  - intros row _. split; [intros H; discriminate H | reflexivity].
Defined.

(** C9: every turn of the loop ends, whatever the outcome of the query, with
    the write of the record followed by one call of the rate-limit wait,
    whose length depends on the proxy configuration only: 180 seconds
    without a proxy, 60 seconds with one. *)
Theorem rate_limit_after_every_url
        (P : Platform) (page : Page) (cfg : option ProxyConfig)
        (row : Row) (st : state) :
  (exists o mid,
     process_row P page cfg row st =
       (page_wait_for_timeout page (waiting_time cfg * 1000),
        {| output_file := output_file st ++ [record row o];
           trace := trace st ++ mid
                    ++ [Wrote (record row o);
                        Wait (waiting_time cfg * 1000)] |}))
  /\ (waiting_time cfg * 1000 =
      if truthy cfg then 60 * 1000 else 180 * 1000)%Z
  /\ (waiting_time None * 1000 = 180000)%Z.
Proof.
  split.
  - destruct (process_row_spec P page cfg row st) as (o & mid & _ & E).
    exists o, mid. exact E.
  - split.
    + unfold waiting_time. destruct (truthy cfg); reflexivity.
    + reflexivity.
Qed.

(** C5, as the claim states it, fails: on the page of the challenge the
    two-hour wait comes first and the sentinel record is written after it. *)
Lemma cooldown_before_record :
  trace (snd (process_row ascii_platform sorry_page None row_a st0))
  = [Wait 1000; Wait 2000; Wait cooldown;
     Wrote (record row_a Blocked); Wait 180000]
  /\ precedes is_write is_cooldown
       (trace (snd (process_row ascii_platform sorry_page None row_a st0)))
     = false.
Proof. split; vm_compute; reflexivity. Qed.

(** C5 (amended): when the query of a row is submitted and the page fails
    the check of the results page, the session first waits two hours and,
    when that wait returns, the sentinel pair
    (SCRAPER_DETECTED, SCRAPER_DETECTED) is recorded, followed by the
    rate-limit wait; all three come before the next row. *)
Theorem blocked_waits_then_records
        (P : Platform) (page : Page) (cfg : option ProxyConfig)
        (row : Row) (st st1 : state) :
  search_on_google page (url row) st = (Ok tt, st1) ->
  results_page_reached page = Raise ->
  page_wait_for_timeout page cooldown = Ok tt ->
  process_row P page cfg row st =
    (page_wait_for_timeout page (waiting_time cfg * 1000),
     {| output_file := output_file st1 ++ [record row Blocked];
        trace := trace st1
                 ++ [Wait cooldown; Wrote (record row Blocked);
                     Wait (waiting_time cfg * 1000)] |})
  /\ first_result Blocked
     = (py "SCRAPER_DETECTED", PStr (py "SCRAPER_DETECTED")).
Proof.
  intros Hs Hb Hw. split; [|reflexivity].
  unfold process_row, try_except, query, bind at 1 2.
  rewrite Hs. unfold classify. rewrite Hb.
  unfold bind, wait_for_timeout, ret. fold cooldown. rewrite Hw.
  unfold write_results, comply_with_terms_of_use, wait_for_timeout.
  simpl. rewrite <- !app_assoc. reflexivity.
Qed.

Lemma blocked_waits_then_records_witness :
  process_row ascii_platform sorry_page None row_a st0 =
    (Ok tt,
     {| output_file := [record row_a Blocked];
        trace := [Wait 1000; Wait 2000; Wait cooldown;
                  Wrote (record row_a Blocked); Wait 180000] |})
  /\ first_result Blocked
     = (py "SCRAPER_DETECTED", PStr (py "SCRAPER_DETECTED")).
Proof.
  exact (@blocked_waits_then_records ascii_platform sorry_page None row_a st0
           {| output_file := []; trace := [Wait 1000; Wait 2000] |}
           eq_refl eq_refl eq_refl).
Defined.

(** ** The classification *)

Section ClassifierFacts.
Variable P : Platform.

Lemma results_page_reached_raise page :
  results_page_reached page = Raise <->
  page_title page = Raise
  \/ (exists title, page_title page = Ok title
                    /\ (find title (py "Google Search") < 0)%Z)
  \/ detected page = true.
Proof.
  unfold results_page_reached.
  destruct (page_title page) as [title|]; simpl.
  - destruct (find title (py "Google Search") >=? 0)%Z eqn:Ef.
    + destruct (detected page); split; intros H; auto; try discriminate.
      destruct H as [H|[(t & Ht & Hlt)|H]]; try discriminate.
      injection Ht as <-. apply Z.geb_le in Ef. lia.
    + split; auto. intros _. right. left. exists title. split; auto.
      rewrite Z.geb_leb in Ef. apply Z.leb_gt in Ef. exact Ef.
  - split; auto.
Qed.

Lemma results_page_reached_ok page u :
  results_page_reached page = Ok u -> u = tt.
Proof. now destruct u. Qed.

(** What [classify] returns, branch by branch. *)
Lemma classify_blocked page st :
  results_page_reached page = Raise ->
  classify P page st =
    (match page_wait_for_timeout page cooldown with
     | Ok _ => Ok Blocked
     | Raise => Raise
     end,
     {| output_file := output_file st;
        trace := trace st ++ [Wait cooldown] |}).
Proof.
  intros H. unfold classify. rewrite H.
  unfold bind, wait_for_timeout, ret. fold cooldown.
  destruct (page_wait_for_timeout page cooldown); reflexivity.
Qed.

Lemma classify_reached page st :
  results_page_reached page = Ok tt ->
  classify P page st =
    (match nothing_found P page with
     | Raise => Raise
     | Ok true => Ok NoResults
     | Ok false =>
         match extract_information_from_results P page with
         | Ok (d, h) => Ok (Success d h)
         | Raise => Ok Error
         end
     end, st).
Proof.
  intros H. unfold classify. rewrite H. unfold bind, lift, ret.
  destruct (nothing_found P page) as [[|]|]; try reflexivity.
  destruct (extract_information_from_results P page) as [[d h]|];
    reflexivity.
Qed.

End ClassifierFacts.

(** C6, as the claim states it, fails: a page whose address is not the one
    of the challenge is classified as blocked when its title does not name
    the results page. *)
Lemma blocked_without_challenge_address :
  fst (classify ascii_platform untitled_page st0) = Ok Blocked
  /\ detected untitled_page = false.
Proof. split; vm_compute; reflexivity. Qed.

(** C6 (amended): the classification yields the blocked outcome exactly when
    the check of the results page fails and the two-hour wait returns; the
    check fails when the title cannot be read, when the title does not
    contain "Google Search", or when the address starts with the prefix of
    the challenge.  The decision reads the title and the address only: two
    pages that agree on the title, the address and the wait are classified
    alike when one of them fails the check, whatever their content. *)
Theorem blocked_iff_check_fails
        (P : Platform) (page : Page) (st : state) :
  (fst (classify P page st) = Ok Blocked <->
   results_page_reached page = Raise
   /\ page_wait_for_timeout page cooldown = Ok tt)
  /\ (results_page_reached page = Raise <->
      page_title page = Raise
      \/ (exists title, page_title page = Ok title
                        /\ (find title (py "Google Search") < 0)%Z)
      \/ startswith (page_url page) (py "https://www.google.com/sorry/")
         = true)
  /\ (forall page',
        page_title page' = page_title page ->
        page_url page' = page_url page ->
        page_wait_for_timeout page' cooldown
        = page_wait_for_timeout page cooldown ->
        results_page_reached page = Raise ->
        classify P page' st = classify P page st).
Proof.
  split; [|split].
  - destruct (results_page_reached page) as [[]|] eqn:Hr.
    + rewrite (classify_reached P page st Hr). simpl. split.
      * destruct (nothing_found P page) as [[|]|]; try discriminate.
        destruct (extract_information_from_results P page) as [[d h]|];
          discriminate.
      * intros [H _]. discriminate.
    + rewrite (classify_blocked P page st Hr). simpl.
      destruct (page_wait_for_timeout page cooldown) as [[]|]; split;
        auto; try discriminate.
      intros [_ H]. discriminate.
  - apply results_page_reached_raise.
  - intros page' Ht Hu Hw Hr.
    assert (Hr' : results_page_reached page' = Raise).
    { revert Hr. unfold results_page_reached, detected.
      rewrite Ht, Hu. auto. }
    rewrite (classify_blocked P page st Hr), (classify_blocked P page' st Hr').
    rewrite Hw. reflexivity.
Qed.

(** C3: the classification, with the handler of the outer [try] as its
    boundary, returns an outcome on every page and never raises; the outcome
    is the blocked one on a page that fails the check of the results page,
    the no-results one on a page whose status region holds a no-results
    phrase, the pair extracted from a page whose result block can be read,
    and the error one wherever a call on the page raises.  After a submitted
    query, the [try] of the loop is this classification. *)
Theorem classification_total
        (P : Platform) (page : Page) (st : state) :
  (exists o st', classifier P page st = (Ok o, st')
     /\ (o = Blocked <->
         results_page_reached page = Raise
         /\ page_wait_for_timeout page cooldown = Ok tt)
     /\ (o = NoResults <->
         results_page_reached page = Ok tt
         /\ nothing_found P page = Ok true)
     /\ (forall d h, o = Success d h <->
         results_page_reached page = Ok tt
         /\ nothing_found P page = Ok false
         /\ extract_information_from_results P page = Ok (d, h))
     /\ (o = Error <->
         (results_page_reached page = Raise
          /\ page_wait_for_timeout page cooldown = Raise)
         \/ (results_page_reached page = Ok tt
             /\ (nothing_found P page = Raise
                 \/ (nothing_found P page = Ok false
                     /\ extract_information_from_results P page = Raise)))))
  /\ (forall row s,
        search_on_google page (url row) s = (Ok tt, st) ->
        try_except (query P page row) (ret Error) s = classifier P page st).
Proof.
  split.
  - unfold classifier, try_except.
    destruct (results_page_reached page) as [[]|] eqn:Hr.
    + rewrite (classify_reached P page st Hr).
      destruct (nothing_found P page) as [[|]|].
      * exists NoResults, st. repeat split; try discriminate; auto;
          intros; repeat match goal with
                         | H : _ /\ _ |- _ => destruct H
                         | H : _ \/ _ |- _ => destruct H
                         end; try discriminate.
      * destruct (extract_information_from_results P page) as [[d h]|].
        -- exists (Success d h), st.
           repeat split; try discriminate; auto;
             intros; repeat match goal with
                            | H : _ /\ _ |- _ => destruct H
                            | H : _ \/ _ |- _ => destruct H
                            end; try discriminate; try congruence.
        -- exists Error, st.
           repeat split; try discriminate; auto;
             intros; repeat match goal with
                            | H : _ /\ _ |- _ => destruct H
                            | H : _ \/ _ |- _ => destruct H
                            end; try discriminate; auto.
      * exists Error. eexists. split; [reflexivity|].
        repeat split; try discriminate; auto;
          intros; repeat match goal with
                         | H : _ /\ _ |- _ => destruct H
                         | H : _ \/ _ |- _ => destruct H
                         end; try discriminate; auto.
    + rewrite (classify_blocked P page st Hr).
      destruct (page_wait_for_timeout page cooldown) as [[]|].
      * exists Blocked. eexists. split; [reflexivity|].
        repeat split; try discriminate; auto;
          intros; repeat match goal with
                         | H : _ /\ _ |- _ => destruct H
                         | H : _ \/ _ |- _ => destruct H
                         end; try discriminate; auto.
      * exists Error. eexists. split; [reflexivity|].
        repeat split; try discriminate; auto;
          intros; repeat match goal with
                         | H : _ /\ _ |- _ => destruct H
                         | H : _ \/ _ |- _ => destruct H
                         end; try discriminate; auto.
  - intros row s Hs. unfold classifier, try_except, query, bind.
    rewrite Hs. reflexivity.
Qed.

(** C10: where lowering the text or the substitution raises, [clean_text]
    returns the empty string, and the no-results check of a page whose
    status region holds such a value returns [False] without raising. *)
Theorem clean_text_swallows_errors (P : Platform) (text : pyval) :
  lower P text = Raise
  \/ (exists lowered, lower P text = Ok lowered
                      /\ CLEAN_RE_sub lowered = Raise) ->
  clean_text P text = []
  /\ (forall page,
        page_wait_for_selector page TOPSTUFF = Ok tt ->
        page_inner_text page TOPSTUFF = Ok text ->
        nothing_found P page = Ok false).
Proof.
  intros H.
  assert (Hc : clean_text P text = []).
  { unfold clean_text, clean_text_try.
    destruct H as [-> | (lowered & -> & Hs)]; simpl; [reflexivity|].
    now rewrite Hs. }
  split; [exact Hc|].
  intros page Hw Ht. unfold nothing_found. rewrite Hw, Ht. simpl.
  rewrite Hc. reflexivity.
Qed.

Lemma clean_text_swallows_errors_witness :
  clean_text ascii_platform PNone = []
  /\ (forall page,
        page_wait_for_selector page TOPSTUFF = Ok tt ->
        page_inner_text page TOPSTUFF = Ok PNone ->
        nothing_found ascii_platform page = Ok false).
Proof.
  apply (@clean_text_swallows_errors ascii_platform PNone).
  left. reflexivity.
Defined.

(** ** Resumed runs *)

Section ResumeFacts.
Variable P : Platform.

Lemma pystr_eqb_eq a b : pystr_eqb a b = true <-> a = b.
Proof.
  unfold pystr_eqb. destruct (list_eq_dec N.eq_dec a b); split; auto.
  discriminate.
Qed.

Lemma isin_In u df_bak_url :
  isin u df_bak_url = true <-> In (Some u) df_bak_url.
Proof.
  unfold isin. rewrite existsb_exists. split.
  - intros ([s|] & Hin & He); [|discriminate He].
    apply pystr_eqb_eq in He. now subst s.
  - intros Hin. exists (Some u). split; [exact Hin|]. now apply pystr_eqb_eq.
Qed.

Lemma urls_of_records (l : list Row) : forall os,
  List.length os = List.length l ->
  map r_url (map (fun ro => record (fst ro) (snd ro)) (combine l os))
  = map url l.
Proof.
  induction l as [|row l IH]; intros [|o os] Hl; simpl in *;
    try discriminate; auto.
  f_equal. apply IH. now injection Hl.
Qed.

Lemma run_scraper_appends B cfg data st :
  exists n outcomes,
    List.length outcomes = List.length (firstn n data) /\
    output_file (snd (run_scraper P B data cfg st)) =
      output_file st
      ++ map (fun ro => record (fst ro) (snd ro))
             (combine (firstn n data) outcomes).
Proof.
  unfold run_scraper, bind.
  destruct (quiet_start_session B cfg st) as (mid & _ & Ho).
  destruct (start_session B cfg st) as [[ps|] st1]; simpl in Ho.
  - destruct (loop_appends P B cfg ps data st1) as (n & os & Hl & Hout).
    exists n, os. split; [exact Hl|].
    destruct (loop P B cfg ps data st1) as [[[]|] st2]; simpl in *;
      rewrite Hout, Ho; reflexivity.
  - exists 0%nat, []. simpl. rewrite Ho, app_nil_r. auto.
Qed.

(** The pending rows are all the rows of the input, or those whose url is
    not among the values read from the file. *)
Lemma pending_Ok B df output rows :
  pending B df output = Ok rows ->
  rows = df
  \/ exists file df_bak_url,
       output = Some file
       /\ pd_read_table B file = Ok df_bak_url
       /\ df_bak_url <> []
       /\ rows = filter (fun row => negb (isin (url row) df_bak_url)) df.
Proof.
  unfold pending. destruct output as [file|].
  - destruct (pd_read_table B file) as [[|v col]|] eqn:E; simpl;
      intros H; try discriminate H; injection H as <-; [now left|].
    right. exists file, (v :: col). repeat split; auto. discriminate.
  - intros H. injection H as <-. now left.
Qed.

(** A row whose url is among the values read from the file is not
    pending. *)
Lemma pending_not_read B df file df_bak_url rows row :
  pd_read_table B file = Ok df_bak_url ->
  pending B df (Some file) = Ok rows ->
  In row rows -> ~ In (Some (url row)) df_bak_url.
Proof.
  intros E H Hin Hc. apply isin_In in Hc.
  unfold pending in H. rewrite E in H. cbn [rbind] in H.
  destruct (0 <? List.length df_bak_url)%nat eqn:El.
  - injection H as <-. apply filter_In in Hin. destruct Hin as [_ Hn].
    rewrite Hc in Hn. discriminate Hn.
  - destruct df_bak_url; [discriminate Hc | discriminate El].
Qed.

Lemma pending_incl B df output rows row :
  pending B df output = Ok rows -> In row rows -> In row df.
Proof.
  intros H Hin. apply pending_Ok in H.
  destruct H as [->|(file & col & _ & _ & _ & ->)]; [exact Hin|].
  apply filter_In in Hin. tauto.
Qed.

Lemma main_pending_Ok B df output conf rows :
  pending B df output = Ok rows ->
  exists n outcomes,
    List.length outcomes = List.length (firstn n rows)
    /\ output_file (snd (main P B df output conf))
       = rows_of output
         ++ map (fun ro => record (fst ro) (snd ro))
                (combine (firstn n rows) outcomes).
Proof.
  intros E. unfold main. rewrite E.
  match goal with |- context [run_scraper P B ?d ?c ?s] =>
    destruct (run_scraper_appends B c d s) as (n & os & Hl & Eo) end.
  exists n, os. split; [exact Hl|]. rewrite Eo. reflexivity.
Qed.

Lemma main_pending_Raise B df output conf :
  pending B df output = Raise ->
  main P B df output conf
  = (Raise, {| output_file := rows_of output; trace := [] |}).
Proof. intros E. unfold main. rewrite E. reflexivity. Qed.

End ResumeFacts.

(** C2: a url of the input that [pd.read_table] does not read back from
    the output file as the text it was written as (the url NA, which is
    read as a missing value) is not removed from the pending set, although
    the file holds a row with that url. *)
Theorem url_read_as_missing_value_stays_pending
        (B : Browser) (df : list Row) (file : list ResultRecord)
        (df_bak_url : list (option pystr)) (row : Row) :
  pd_read_table B file = Ok df_bak_url ->
  In row df ->
  In (url row) (map r_url file) ->
  ~ In (Some (url row)) df_bak_url ->
  exists rows, pending B df (Some file) = Ok rows /\ In row rows.
Proof.
  intros E Hrow _ Hn. unfold pending. rewrite E. simpl.
  destruct (0 <? List.length df_bak_url)%nat; eexists; (split; [reflexivity|]);
    [|exact Hrow].
  apply filter_In. split; [exact Hrow|]. apply negb_true_iff.
  destruct (isin (url row) df_bak_url) eqn:Ei; [|reflexivity].
  apply isin_In in Ei. contradiction.
Qed.

Lemma url_read_as_missing_value_stays_pending_witness :
  exists rows,
    pending steady_session [row_na] (Some [record row_na NoResults])
    = Ok rows
    /\ In row_na rows.
Proof.
  apply (@url_read_as_missing_value_stays_pending steady_session [row_na]
           [record row_na NoResults] [None] row_na).
  - reflexivity.
  - left. reflexivity.
  - left. reflexivity.
  - intros [H|[]]. discriminate H.
Defined.

(** In an environment that disables the progress bar, a run on the input
    row with the url NA and a file that holds a row with that url writes
    the url a second time. *)
Lemma missing_value_url_is_written_twice :
  map r_url
      (output_file
         (snd (main ascii_platform disabled_bar_session [row_na]
                    (Some [record row_na NoResults]) Raise)))
  = [py "NA"; py "NA"].
Proof. vm_compute. reflexivity. Qed.

(** ** The matcher *)

Section MatcherFacts.
Context {A : Type}.




Lemma match_k_LitI w : forall s caps (k : _ -> _ -> option A),
  match_k (LitI w) s caps k
  = if ci_prefix w s then k (skipn (List.length w) s) caps else None.
Proof.
  induction w as [|c w IH]; intros s caps k; [reflexivity|].
  destruct w as [|c' w'].
  - simpl. destruct s as [|x s]; auto.
    destruct (ignorecase_eq (ascii_lower c) x); auto.
  - change (LitI (c :: c' :: w')) with (Seq (ChrI c) (LitI (c' :: w'))).
    cbn [match_k ChrI]. destruct s as [|x s]; auto.
    cbn [ci_prefix]. destruct (ignorecase_eq (ascii_lower c) x);
      [apply IH | reflexivity].
Qed.

Lemma match_k_alternation ws : forall s caps (k : _ -> _ -> option A),
  match_k (alternation (map LitI ws)) s caps k
  = first_some
      (fun w => if ci_prefix w s
                then k (skipn (List.length w) s) caps else None)
      ws.
Proof.
  induction ws as [|w ws IH]; intros s caps k.
  - simpl. destruct s; reflexivity.
  - destruct ws as [|w' ws'].
    + cbn [map alternation first_some]. rewrite match_k_LitI.
      destruct (ci_prefix w s); auto. destruct (k _ caps); auto.
    + change (alternation (map LitI (w :: w' :: ws')))
        with (Alt (LitI w) (alternation (map LitI (w' :: ws')))).
      cbn [match_k first_some]. rewrite match_k_LitI, IH. reflexivity.
Qed.

Lemma first_some_Some {X} (f : X -> option A) l x :
  first_some f l = Some x -> exists w, In w l /\ f w = Some x.
Proof.
  induction l as [|w l IH]; simpl; [discriminate|].
  destruct (f w) eqn:E.
  - intros H. injection H as <-. eauto.
  - intros H. destruct (IH H) as (w' & Hin & Hf). eauto.
Qed.

End MatcherFacts.



(** ** The date formats *)

Ltac bool_to_Prop :=
  repeat rewrite ?orb_true_iff, ?andb_true_iff, ?orb_false_iff,
    ?andb_false_iff, ?N.eqb_eq, ?N.eqb_neq, ?N.leb_le, ?N.leb_gt,
    ?N.ltb_lt, ?N.ltb_ge in *.



Lemma ascii_lower_lower c : is_lower_az c = true -> ascii_lower c = c.
Proof.
  intros Hc. unfold ascii_lower, is_lower_az, is_upper_AZ, in_range in *.
  destruct ((65 <=? c)%N && (c <=? 90)%N) eqn:Eu; auto.
  bool_to_Prop. lia.
Qed.



Section StrptimeFacts.
Variable P : Platform.

Lemma pattern_abbreviated :
  pattern P false (py "%b %d, %Y")
  = Some (Seq (seqToRE a_month "b") (day_year_re P)).
Proof. reflexivity. Qed.

Lemma pattern_full :
  pattern P false (py "%B %d, %Y")
  = Some (Seq (seqToRE f_month "B") (day_year_re P)).
Proof. reflexivity. Qed.

(** A match of a format that starts with a month starts with one of the
    names, and the rest of the pattern matches behind it. *)
Lemma month_first names g R s x :
  Re.match_ (Seq (seqToRE names g) R) s = Some x ->
  exists w,
    In w (sorted_by_len names) /\ ci_prefix w s = true /\
    match_k R (skipn (List.length w) s)
            [(g, firstn (List.length s
                         - List.length (skipn (List.length w) s)) s)]
            accept = Some x.
Proof.
  unfold Re.match_, seqToRE. cbn [match_k].
  rewrite match_k_alternation. intros H.
  apply first_some_Some in H. destruct H as (w & Hin & Hf).
  exists w. split; [exact Hin|].
  destruct (ci_prefix w s); [|discriminate]. split; [reflexivity|].
  exact Hf.
Qed.







End StrptimeFacts.

(** ** The date canonicalizer *)

(** C4, as the claim states it, fails: the text "by J Doe · 2010" is
    returned as "2010-01-01". *)
Lemma attributed_year_becomes_first_of_january :
  canonicalization_date ascii_platform (py "by J Doe · 2010") default_formats
  = py "2010-01-01".
Proof. vm_compute. reflexivity. Qed.

(** C4 (amended): for the text "by J Doe · 2010" the canonicalizer strips
    the attribution, which leaves "2010"; the two formats with a month
    refuse it, the year-only format parses it as the first of January of
    2010, and the date is returned in the one output format of the
    function, year-month-day: "2010-01-01". *)
Theorem attributed_year_is_parsed_year_only (P : Platform) :
  strip (Re.sub ATTRIBUTION_RE (py "by J Doe · 2010")) = py "2010"
  /\ strptime P (py "2010") (py "%b %d, %Y") = Raise
  /\ strptime P (py "2010") (py "%B %d, %Y") = Raise
  /\ strptime P (py "2010") (py "%Y")
     = Ok {| year := 2010; month := 1; day := 1 |}
  /\ canonicalization_date P (py "by J Doe · 2010") default_formats
     = py "2010-01-01".
Proof. repeat split; vm_compute; reflexivity. Qed.

(** C8: where none of the formats parses the stripped text, the
    canonicalizer returns the text with the attribution stripped and the
    white space at both ends trimmed, as it is. *)
Theorem unparsed_text_is_returned_stripped
        (P : Platform) (date : pystr) (formats : list pystr) :
  (forall format, In format formats ->
     strptime P (strip (Re.sub ATTRIBUTION_RE date)) format = Raise) ->
  canonicalization_date P date formats
  = strip (Re.sub ATTRIBUTION_RE date).
Proof.
  unfold canonicalization_date.
  generalize (strip (Re.sub ATTRIBUTION_RE date)). intros text.
  induction formats as [|format formats IH]; intros H; simpl; auto.
  rewrite (H format (or_introl eq_refl)). apply IH.
  intros f Hf. apply H. now right.
Qed.

Lemma unparsed_text_is_returned_stripped_witness :
  canonicalization_date ascii_platform (py "by J Doe · Sept 5, 2010 ")
                        default_formats
  = strip (Re.sub ATTRIBUTION_RE (py "by J Doe · Sept 5, 2010 ")).
Proof.
  apply (@unparsed_text_is_returned_stripped ascii_platform
           (py "by J Doe · Sept 5, 2010 ") default_formats).
  intros format H.
  repeat (destruct H as [<-|H]; [vm_compute; reflexivity|]).
  destruct H.
Defined.


(** * Further properties of the module *)

(** ** The matcher returns what the pattern denotes *)

Lemma star_k_sound {A} p s (k : pystr -> option A) x :
  star_k p s k = Some x ->
  exists m s', s = m ++ s' /\ forallb p m = true /\ k s' = Some x.
Proof.
  induction s as [|c s IH]; simpl; intros H.
  - exists [], []. auto.
  - destruct (p c) eqn:Ep; [|exists [], (c :: s); auto].
    destruct (star_k p s k) eqn:Es.
    + injection H as <-. destruct (IH eq_refl) as (m & s' & -> & Hm & Hk).
      exists (c :: m), s'. simpl. rewrite Ep. auto.
    + exists [], (c :: s). auto.
Qed.

Lemma match_k_sound {A} r :
  forall s caps (k : pystr -> Re.captures -> option A) x,
    match_k r s caps k = Some x ->
    exists m s' caps', s = m ++ s' /\ denotes r m /\ k s' caps' = Some x.
Proof.
  induction r as [|p|r1 IH1 r2 IH2|r1 IH1 r2 IH2|p|name r IH];
    intros s caps k x H; simpl in H.
  - exists [], s, caps. simpl. auto.
  - destruct s as [|c s]; [discriminate|].
    destruct (p c) eqn:Ep; [|discriminate].
    exists [c], s, caps. simpl. eauto.
  - apply IH1 in H. destruct H as (m1 & s1 & c1 & -> & H1 & H).
    apply IH2 in H. destruct H as (m2 & s2 & c2 & -> & H2 & H).
    exists (m1 ++ m2), s2, c2. simpl. rewrite app_assoc. eauto 7.
  - destruct (match_k r1 s caps k) eqn:E1.
    + injection H as <-. apply IH1 in E1.
      destruct E1 as (m & s' & c' & -> & Hm & Hk).
      exists m, s', c'. simpl. auto.
    + apply IH2 in H. destruct H as (m & s' & c' & -> & Hm & Hk).
      exists m, s', c'. simpl. auto.
  - apply star_k_sound in H. destruct H as (m & s' & -> & Hm & Hk).
    exists m, s', caps. simpl. auto.
  - apply IH in H. destruct H as (m & s' & c' & E & Hm & Hk).
    exists m, s'. eexists. simpl. eauto.
Qed.

Lemma match_sound r s rest caps :
  Re.match_ r s = Some (rest, caps) ->
  exists m, s = m ++ rest /\ denotes r m.
Proof.
  unfold Re.match_. intros H. apply match_k_sound in H.
  destruct H as (m & s' & c' & -> & Hm & Hk). injection Hk as <- <-.
  eauto.
Qed.

Lemma match_len_sound r s n :
  Re.match_len r s = Some n ->
  exists rest, s = firstn n s ++ rest /\ denotes r (firstn n s).
Proof.
  unfold Re.match_len. destruct (Re.match_ r s) as [[rest caps]|] eqn:E;
    [|discriminate].
  intros H. injection H as <-. apply match_sound in E.
  destruct E as (m & -> & Hm). exists rest.
  rewrite length_app, Nat.add_sub, firstn_app, firstn_all, Nat.sub_diag.
  simpl. rewrite app_nil_r. auto.
Qed.

(** What [search] returns is a piece of the text that the pattern
    denotes. *)
Lemma search_sound r : forall s g,
  Re.search r s = Some g ->
  exists a b, s = a ++ g ++ b /\ denotes r g.
Proof.
  induction s as [|c s IH]; intros g H; simpl in H.
  - destruct (Re.match_len r []) as [n|] eqn:E; [|discriminate].
    injection H as <-. apply match_len_sound in E.
    destruct E as (rest & E & Hm). exists [], rest. auto.
  - destruct (Re.match_len r (c :: s)) as [n|] eqn:E.
    + injection H as <-. apply match_len_sound in E.
      destruct E as (rest & E & Hm). exists [], rest. auto.
    + destruct (IH g H) as (a & b & -> & Hm). exists (c :: a), b. auto.
Qed.

(** ** The text cleaner *)

Lemma span_len_le p s : (span_len p s <= List.length s)%nat.
Proof.
  induction s as [|c s IH]; simpl; [lia|]. destruct (p c); simpl; lia.
Qed.

Lemma span_len_all p s : forallb p (firstn (span_len p s) s) = true.
Proof.
  induction s as [|c s IH]; simpl; auto.
  destruct (p c) eqn:E; simpl; auto. now rewrite E.
Qed.

Lemma star_k_greedy p s caps :
  star_k p s (fun s1 => Some (s1, caps))
  = Some (skipn (span_len p s) s, caps : Re.captures).
Proof.
  induction s as [|c s IH]; simpl; auto.
  destruct (p c); [rewrite IH|]; reflexivity.
Qed.

Lemma match_len_Plus p c s :
  Re.match_len (Plus p) (c :: s)
  = if p c then Some (S (span_len p s)) else None.
Proof.
  unfold Re.match_len, Re.match_, Plus. cbn [match_k].
  destruct (p c); [|reflexivity].
  rewrite star_k_greedy, length_skipn. cbn [List.length].
  pose proof (span_len_le p s). f_equal. lia.
Qed.

Lemma filter_none {A} (p : A -> bool) l :
  forallb p l = true -> filter (fun c => negb (p c)) l = [].
Proof.
  induction l as [|a l IH]; simpl; auto.
  intros H. apply andb_true_iff in H. destruct H as [Ha Hl].
  rewrite Ha. simpl. auto.
Qed.

(** Removing the matches of [p+] removes the characters of [p], one run at
    a time, and nothing else. *)
Lemma sub_Plus_filter p : forall s skip,
  forallb p (firstn skip s) = true ->
  Re.sub_empty (Plus p) skip s = filter (fun c => negb (p c)) (skipn skip s).
Proof.
  induction s as [|c s IH]; intros skip H.
  - destruct skip; reflexivity.
  - destruct skip as [|n].
    + cbn [Re.sub_empty skipn]. rewrite match_len_Plus.
      destruct (p c) eqn:Ec.
      * rewrite IH by apply span_len_all.
        cbn [filter]. rewrite Ec. cbn [negb]. symmetry.
        rewrite <- (firstn_skipn (span_len p s) s) at 1.
        rewrite filter_app, (filter_none p _ (span_len_all p s)).
        reflexivity.
      * rewrite IH by reflexivity. cbn [filter skipn]. rewrite Ec.
        reflexivity.
    + cbn [Re.sub_empty skipn]. apply IH.
      simpl in H. apply andb_true_iff in H. tauto.
Qed.

Lemma CLEAN_RE_sub_filter s :
  Re.sub CLEAN_RE s = filter letter_or_space s.
Proof.
  unfold Re.sub, CLEAN_RE. rewrite sub_Plus_filter by reflexivity.
  cbn [skipn]. apply filter_ext. intros c.
  unfold cls_not_letter_space, letter_or_space. apply negb_involutive.
Qed.

Lemma clean_text_filter (P : Platform) (text : pystr) :
  clean_text P (PStr text) = filter letter_or_space (str_lower P text).
Proof.
  unfold clean_text, clean_text_try. simpl. apply CLEAN_RE_sub_filter.
Qed.

(** X1: on a text, [clean_text] returns the lower-cased text without the
    characters that are neither a letter of [A-Za-z] nor white space; the
    characters it keeps stay in their order. *)
Theorem clean_text_keeps_letters_and_spaces (P : Platform) (text : pystr) :
  clean_text P (PStr text) = filter letter_or_space (str_lower P text).
Proof.
  unfold clean_text, clean_text_try, lower, CLEAN_RE_sub. cbn [rbind].
  unfold Re.sub, CLEAN_RE. rewrite sub_Plus_filter by reflexivity.
  cbn [skipn]. apply filter_ext. intros c.
  unfold cls_not_letter_space, letter_or_space. apply negb_involutive.
Qed.

Lemma ascii_lower_not_upper c : is_upper_AZ (ascii_lower c) = false.
Proof.
  unfold ascii_lower, is_upper_AZ, in_range.
  destruct ((65 <=? c)%N && (c <=? 90)%N) eqn:E; [|exact E].
  bool_to_Prop. lia.
Qed.

Lemma ascii_lower_ascii c :
  is_ascii c = true -> is_ascii (ascii_lower c) = true.
Proof.
  unfold ascii_lower, is_upper_AZ, in_range, is_ascii.
  destruct ((65 <=? c)%N && (c <=? 90)%N) eqn:E; auto.
  bool_to_Prop. lia.
Qed.

Lemma ascii_lower_fixes_lower_and_space c :
  is_lower_az c || is_space c = true -> ascii_lower c = c.
Proof.
  intros H. unfold ascii_lower, is_upper_AZ, is_lower_az, is_space, in_range
    in *.
  destruct ((65 <=? c)%N && (c <=? 90)%N) eqn:E; auto.
  bool_to_Prop. lia.
Qed.

Lemma clean_text_of_ascii (P : Platform) (text : pystr) :
  forallb is_ascii text = true ->
  clean_text P (PStr text)
  = filter (fun c => is_lower_az c || is_space c) (map ascii_lower text).
Proof.
  intros H. rewrite clean_text_filter.
  unfold str_lower. rewrite H. clear H.
  induction text as [|c text IH]; simpl; auto.
  unfold letter_or_space at 1. rewrite ascii_lower_not_upper. simpl.
  rewrite IH. reflexivity.
Qed.

Lemma forallb_filter_same {A} (f : A -> bool) l :
  forallb f (filter f l) = true.
Proof.
  induction l as [|a l IH]; simpl; auto.
  destruct (f a) eqn:E; simpl; auto. now rewrite E.
Qed.

Lemma filter_all {A} (f : A -> bool) l :
  forallb f l = true -> filter f l = l.
Proof.
  induction l as [|a l IH]; simpl; auto.
  intros H. apply andb_true_iff in H. destruct H as [Ha Hl].
  rewrite Ha, (IH Hl). reflexivity.
Qed.

Lemma forallb_filter_weaken {A} (f g : A -> bool) l :
  forallb g l = true -> forallb g (filter f l) = true.
Proof.
  induction l as [|a l IH]; simpl; auto.
  intros H. apply andb_true_iff in H. destruct H as [Ha Hl].
  destruct (f a); simpl; auto. rewrite Ha. simpl. auto.
Qed.

(** X2: on an ASCII text the result of [clean_text] holds lower-case
    letters and white space only, and cleaning it again changes nothing. *)
Theorem clean_text_idempotent_on_ascii (P : Platform) (text : pystr) :
  forallb is_ascii text = true ->
  forallb (fun c => is_lower_az c || is_space c) (clean_text P (PStr text))
  = true
  /\ clean_text P (PStr (clean_text P (PStr text)))
     = clean_text P (PStr text).
Proof.
  intros H. rewrite (clean_text_of_ascii P text H).
  set (keep := fun c => is_lower_az c || is_space c).
  set (t := filter keep (map ascii_lower text)).
  assert (Hk : forallb keep t = true) by apply forallb_filter_same.
  assert (Ha : forallb is_ascii t = true).
  { apply forallb_filter_weaken. rewrite forallb_forall in *.
    intros x Hx. apply in_map_iff in Hx. destruct Hx as (c & <- & Hc).
    apply ascii_lower_ascii. auto. }
  split; [exact Hk|].
  rewrite (clean_text_of_ascii P t Ha). fold keep.
  assert (Hm : map ascii_lower t = t).
  { rewrite <- (map_id t) at 2. apply map_ext_in. intros c Hc.
    apply ascii_lower_fixes_lower_and_space.
    rewrite forallb_forall in Hk. exact (Hk c Hc). }
  rewrite Hm. apply filter_all. exact Hk.
Qed.

Lemma clean_text_idempotent_on_ascii_witness :
  forallb (fun c => is_lower_az c || is_space c)
          (clean_text ascii_platform
                      (PStr (py "No results found for 'X-1'.")))
  = true
  /\ clean_text ascii_platform
       (PStr (clean_text ascii_platform
                         (PStr (py "No results found for 'X-1'."))))
     = clean_text ascii_platform (PStr (py "No results found for 'X-1'.")).
Proof.
  apply (@clean_text_idempotent_on_ascii ascii_platform
           (py "No results found for 'X-1'.")).
  reflexivity.
Defined.

(** ** The no-results check *)

Lemma startswith_iff t : forall s,
  startswith s t = true <-> exists b, s = t ++ b.
Proof.
  induction t as [|p t IH]; intros s; simpl.
  - split; [eauto|]. intros _. destruct s; reflexivity.
  - destruct s as [|c s]; cbn [startswith].
    + split; [discriminate|]. intros (b & H). discriminate.
    + rewrite andb_true_iff, N.eqb_eq, IH. split.
      * intros (-> & b & ->). eauto.
      * intros (b & H). injection H as -> ->. eauto.
Qed.

Lemma find_from_spec t : forall s i,
  (0 <= i)%Z ->
  ((find_from i s t >=? 0)%Z = true <-> exists a b, s = a ++ t ++ b).
Proof.
  induction s as [|c s IH]; intros i Hi; cbn [find_from].
  - destruct (startswith [] t) eqn:E.
    + apply startswith_iff in E. destruct E as (b & E).
      split; [intros _; exists [], b; exact E|].
      intros _. apply Z.geb_le. lia.
    + split; [discriminate|]. intros (a & b & H).
      destruct a; [|discriminate]. simpl in H.
      assert (startswith [] t = true) by (apply startswith_iff; eauto).
      congruence.
  - destruct (startswith (c :: s) t) eqn:E.
    + apply startswith_iff in E. destruct E as (b & E).
      split; [intros _; exists [], b; exact E|].
      intros _. apply Z.geb_le. lia.
    + rewrite IH by lia. split.
      * intros (a & b & ->). exists (c :: a), b. reflexivity.
      * intros (a & b & H). destruct a as [|c' a].
        -- simpl in H.
           assert (startswith (c :: s) t = true)
             by (apply startswith_iff; eauto).
           congruence.
        -- injection H as _ ->. eauto.
Qed.

(** [s.find(t) >= 0] says that [t] occurs in [s]. *)
Lemma find_occurs s t :
  (find s t >=? 0)%Z = true <-> exists a b, s = a ++ t ++ b.
Proof. apply find_from_spec. lia. Qed.

(** X3: on a page whose status region can be read and holds a text,
    [nothing_found] returns [True] exactly when one of the two no-results
    phrases occurs in the text once it is lower-cased and rid of everything
    but letters and white space; it returns [False] otherwise and does not
    raise. *)
Theorem nothing_found_iff_phrase_occurs
        (P : Platform) (page : Page) (text : pystr) :
  page_wait_for_selector page TOPSTUFF = Ok tt ->
  page_inner_text page TOPSTUFF = Ok (PStr text) ->
  (nothing_found P page = Ok true \/ nothing_found P page = Ok false)
  /\ (nothing_found P page = Ok true <->
      exists target a b,
        In target [py "no results found for";
                   py "did not match any documents"]
        /\ filter letter_or_space (str_lower P text) = a ++ target ++ b).
Proof.
  intros Hw Ht.
  set (msg := filter letter_or_space (str_lower P text)).
  assert (E : nothing_found P page =
              Ok ((find msg (py "no results found for") >=? 0)%Z
                  || (find msg (py "did not match any documents") >=? 0)%Z)).
  { unfold nothing_found, no_results_targets. rewrite Hw, Ht.
    cbn [rbind map existsb].
    rewrite clean_text_filter, !orb_false_r.
    reflexivity. }
  rewrite E. split.
  - match goal with |- Ok ?b = _ \/ _ => destruct b end; auto.
  - split.
    + intros H. injection H as H. apply orb_true_iff in H.
      destruct H as [H|H]; apply find_occurs in H;
        destruct H as (a & b & H).
      * exists (py "no results found for"), a, b. simpl. auto.
      * exists (py "did not match any documents"), a, b. simpl. auto.
    + intros (target & a & b & Hin & H). f_equal. apply orb_true_iff.
      destruct Hin as [<-|[<-|[]]]; [left|right]; apply find_occurs; eauto.
Qed.

Lemma nothing_found_iff_phrase_occurs_witness :
  (nothing_found ascii_platform no_results_page = Ok true
   \/ nothing_found ascii_platform no_results_page = Ok false)
  /\ (nothing_found ascii_platform no_results_page = Ok true <->
      exists target a b,
        In target [py "no results found for";
                   py "did not match any documents"]
        /\ filter letter_or_space
                  (str_lower ascii_platform
                             (py "No results found for 'a.example'."))
           = a ++ target ++ b).
Proof.
  apply (@nothing_found_iff_phrase_occurs ascii_platform no_results_page
           (py "No results found for 'a.example'."));
    reflexivity.
Defined.

(** ** The date pattern *)

Ltac break_denotes :=
  repeat match goal with
         | H : exists _, _ |- _ => destruct H
         | H : _ /\ _ |- _ => destruct H
         end.

Lemma attribution_denotes m :
  denotes attribution m -> attribution_shape m.
Proof.
  unfold attribution. change (Lit (py "by ")) with
    (Seq (Chr 98%N) (Seq (Chr 121%N) (Chr space))).
  change (Lit [space; middle_dot]) with (Seq (Chr space) (Chr middle_dot)).
  unfold Chr. cbn [denotes]. intros H. break_denotes. subst.
  repeat match goal with H : (_ =? _)%N = true |- _ =>
           apply N.eqb_eq in H; subst end.
  match goal with
  | Hi : forallb cls_initials ?i = true, Hn : forallb cls_name ?n = true
    |- _ => exists i, n
  end.
  split; [reflexivity | split; assumption].
Qed.

Lemma DATE_RE_denotes g :
  denotes DATE_RE g ->
  exists pre d1 d2 d3 d4,
    g = pre ++ [space; d1; d2; d3; d4]
    /\ forallb is_digit_09 [d1; d2; d3; d4] = true
    /\ (month_day_shape pre \/ attribution_shape pre).
Proof.
  unfold DATE_RE, Chr, Opt. cbn [denotes].
  intros (pre & tail & -> & Hpre & Htail).
  destruct Htail as (? & ? & -> & (sp & -> & Hsp)
                     & ? & ? & -> & (d1 & -> & H1)
                     & ? & ? & -> & (d2 & -> & H2)
                     & ? & ? & -> & (d3 & -> & H3) & (d4 & -> & H4)).
  apply N.eqb_eq in Hsp. subst sp.
  exists pre, d1, d2, d3, d4.
  split; [reflexivity|].
  split; [cbn [forallb]; now rewrite H1, H2, H3, H4|].
  destruct Hpre as [Hm|Ha]; [left|right; now apply attribution_denotes].
  destruct Hm as (? & ? & -> & (u & -> & Hu)
                  & ? & ? & -> & (l1 & -> & Hl1)
                  & ? & ? & -> & (l2 & -> & Hl2)
                  & ls & ? & -> & Hls
                  & ? & ? & -> & (b & -> & Hb)
                  & ? & ? & -> & (d & -> & Hd)
                  & o & ? & -> & Ho & (c & -> & Hc)).
  apply N.eqb_eq in Hb, Hc. subst b c.
  exists u, (l1 :: l2 :: ls), (d :: o).
  split; [cbn [app]; repeat rewrite <- app_assoc; reflexivity|].
  split; [exact Hu|].
  split; [cbn [List.length]; lia|].
  split; [cbn [forallb]; now rewrite Hl1, Hl2|].
  destruct Ho as [(c & -> & Hc)| ->]; cbn [List.length forallb];
    rewrite Hd, ?Hc; split; auto; lia.
Qed.

(** ** The extraction *)

(** X4: when the extraction returns a pair, the address is the one the page
    gave for the link of the first result, and the date is either the
    sentinel NO_DATE_DETECTED or the canonical form of a piece of the result
    text that ends with a blank and four digits and starts either with a
    capitalised word, a day and a comma or with an attribution. *)
Theorem extraction_returns_link_and_dated_piece
        (P : Platform) (page : Page) (d : pystr) (h : pyval) :
  extract_information_from_results P page = Ok (d, h) ->
  exists text,
    page_inner_text page GOOGLE_RESULTS_SELECTOR = Ok (PStr text)
    /\ page_eval_on_selector page GOOGLE_HREF_SELECTOR = Ok h
    /\ (d = py "NO_DATE_DETECTED"
        \/ exists a g b pre d1 d2 d3 d4,
             text = a ++ g ++ b
             /\ g = pre ++ [space; d1; d2; d3; d4]
             /\ forallb is_digit_09 [d1; d2; d3; d4] = true
             /\ (month_day_shape pre \/ attribution_shape pre)
             /\ d = canonicalization_date P g default_formats).
Proof.
  unfold extract_information_from_results.
  destruct (page_wait_for_selector page RSO) as [[]|]; [|discriminate].
  cbn [rbind].
  destruct (page_inner_text page GOOGLE_RESULTS_SELECTOR) as [[text| | |]|];
    try discriminate.
  cbn [rbind DATE_RE_search].
  destruct (page_eval_on_selector page GOOGLE_HREF_SELECTOR) as [href|];
    [|discriminate].
  cbn [rbind]. intros H. exists text. split; [reflexivity|].
  destruct (Re.search DATE_RE text) as [g|] eqn:Es.
  - injection H as <- <-. split; [reflexivity|]. right.
    apply search_sound in Es. destruct Es as (a & b & -> & Hg).
    apply DATE_RE_denotes in Hg.
    destruct Hg as (pre & d1 & d2 & d3 & d4 & -> & Hd & Hs).
    exists a, (pre ++ [space; d1; d2; d3; d4]), b, pre, d1, d2, d3, d4.
    auto.
  - injection H as <- <-. auto.
Qed.

Lemma extraction_returns_link_and_dated_piece_witness :
  exists text,
    page_inner_text results_page GOOGLE_RESULTS_SELECTOR = Ok (PStr text)
    /\ page_eval_on_selector results_page GOOGLE_HREF_SELECTOR
       = Ok (PStr (py "https://a.example/"))
    /\ (py "2010-06-10" = py "NO_DATE_DETECTED"
        \/ exists a g b pre d1 d2 d3 d4,
             text = a ++ g ++ b
             /\ g = pre ++ [space; d1; d2; d3; d4]
             /\ forallb is_digit_09 [d1; d2; d3; d4] = true
             /\ (month_day_shape pre \/ attribution_shape pre)
             /\ py "2010-06-10"
                = canonicalization_date ascii_platform g default_formats).
Proof.
  apply (@extraction_returns_link_and_dated_piece ascii_platform
           results_page (py "2010-06-10") (PStr (py "https://a.example/"))).
  vm_compute. reflexivity.
Defined.

(** X5: a result text without any digit holds no date: when the page can
    be read, the extraction returns the sentinel NO_DATE_DETECTED together
    with the address of the link. *)
Theorem text_without_digits_gives_no_date
        (P : Platform) (page : Page) (text : pystr) (h : pyval) :
  page_wait_for_selector page RSO = Ok tt ->
  page_inner_text page GOOGLE_RESULTS_SELECTOR = Ok (PStr text) ->
  page_eval_on_selector page GOOGLE_HREF_SELECTOR = Ok h ->
  forallb (fun c => negb (is_digit_09 c)) text = true ->
  extract_information_from_results P page = Ok (py "NO_DATE_DETECTED", h).
Proof.
  intros Hw Ht Hh Hn. unfold extract_information_from_results.
  rewrite Hw, Ht, Hh. cbn [rbind DATE_RE_search].
  destruct (Re.search DATE_RE text) as [g|] eqn:Es; [exfalso|reflexivity].
  apply search_sound in Es. destruct Es as (a & b & -> & Hg).
  apply DATE_RE_denotes in Hg.
  destruct Hg as (pre & d1 & d2 & d3 & d4 & -> & Hd & _).
  rewrite forallb_forall in Hn.
  assert (Hin : In d1 (a ++ (pre ++ [space; d1; d2; d3; d4]) ++ b)).
  { apply in_or_app. right. apply in_or_app. left.
    apply in_or_app. right. simpl. auto. }
  apply Hn in Hin. cbn [forallb] in Hd.
  apply andb_true_iff in Hd. destruct Hd as [Hd _].
  rewrite Hd in Hin. discriminate.
Qed.

Lemma text_without_digits_gives_no_date_witness :
  extract_information_from_results ascii_platform undated_page
  = Ok (py "NO_DATE_DETECTED", PStr (py "https://a.example/")).
Proof.
  apply (@text_without_digits_gives_no_date ascii_platform undated_page
           (py "A page - a.example - Some text")
           (PStr (py "https://a.example/")));
    reflexivity.
Defined.

(** ** More on the date canonicalizer *)

Lemma rbind_Ok {A B} (r : result A) (f : A -> result B) b :
  rbind r f = Ok b -> exists a, r = Ok a /\ f a = Ok b.
Proof. destruct r as [a|]; simpl; [eauto|discriminate]. Qed.

(** A date that [strptime] returns is a date of the calendar. *)
Lemma strptime_calendar P text format dt :
  strptime P text format = Ok dt ->
  (1 <= year dt <= 9999 /\ 1 <= month dt <= 12
   /\ 1 <= day dt <= days_in_month (year dt) (month dt))%N.
Proof.
  unfold strptime.
  destruct (pattern P false format) as [re|]; [|discriminate].
  destruct (Re.match_ re text) as [[[|c rest] fd]|]; try discriminate.
  intros H. apply rbind_Ok in H. destruct H as ([[y m] d] & _ & H).
  unfold datetime_date in H.
  destruct (in_range 1 9999 y && in_range 1 12 m
            && in_range 1 (days_in_month y m) d) eqn:E; [|discriminate].
  injection H as <-. simpl. unfold in_range in E. bool_to_Prop. lia.
Qed.

Lemma strftime_Ymd P dt :
  strftime P dt (py "%Y-%m-%d")
  = format_year P (year dt) ++ [hyphen] ++ two_digits (month dt)
    ++ [hyphen] ++ two_digits (day dt).
Proof. reflexivity. Qed.

(** The loop over the formats returns the text or the rendering of a date
    that one of the formats parsed. *)
Lemma try_formats_text_or_date P text formats :
  try_formats P text formats = text
  \/ exists format dt,
       In format formats
       /\ strptime P text format = Ok dt
       /\ try_formats P text formats = strftime P dt (py "%Y-%m-%d").
Proof.
  induction formats as [|format formats IH]; cbn [try_formats]; auto.
  destruct (strptime P text format) as [dt|] eqn:E.
  - right. exists format, dt. repeat split; auto. now left.
  - destruct IH as [IH|(f & dt & Hin & Hp & IH)]; [now left|].
    right. exists f, dt. repeat split; auto. now right.
Qed.

(** X6: with the formats of the module, the canonicalizer returns either
    the text it was given, with the attribution stripped and the ends
    trimmed, or the year, the month and the day of a date of the calendar,
    joined by hyphens, the month and the day with two digits. *)
Theorem canonicalization_returns_text_or_calendar_date
        (P : Platform) (date : pystr) :
  canonicalization_date P date default_formats
  = strip (Re.sub ATTRIBUTION_RE date)
  \/ exists dt,
       (1 <= year dt <= 9999 /\ 1 <= month dt <= 12
        /\ 1 <= day dt <= days_in_month (year dt) (month dt))%N
       /\ canonicalization_date P date default_formats
          = format_year P (year dt) ++ [hyphen] ++ two_digits (month dt)
            ++ [hyphen] ++ two_digits (day dt).
Proof.
  unfold canonicalization_date.
  destruct (try_formats_text_or_date P (strip (Re.sub ATTRIBUTION_RE date))
                                     default_formats)
    as [E|(format & dt & _ & Hp & E)]; [now left|right].
  exists dt. split; [exact (strptime_calendar P _ format Hp)|].
  rewrite E. apply strftime_Ymd.
Qed.

(** *** Texts the attribution pattern does not touch *)

Lemma sub_unchanged r : forall s,
  (forall a b, s = a ++ b -> Re.match_len r b = None) ->
  Re.sub r s = s.
Proof.
  unfold Re.sub. induction s as [|c s IH]; intros H; [reflexivity|].
  cbn [Re.sub_empty]. rewrite (H [] (c :: s) eq_refl). f_equal.
  apply IH. intros a b ->. apply (H (c :: a) b). reflexivity.
Qed.

Lemma ATTRIBUTION_RE_denotes m :
  denotes ATTRIBUTION_RE m -> In middle_dot m.
Proof.
  unfold ATTRIBUTION_RE. cbn [denotes].
  intros (m1 & m2 & -> & H & _). apply attribution_denotes in H.
  destruct H as (i & n & -> & _). apply in_or_app. left.
  repeat (apply in_or_app; right). simpl. auto.
Qed.

Lemma sub_without_middle_dot date :
  ~ In middle_dot date -> Re.sub ATTRIBUTION_RE date = date.
Proof.
  intros Hn. apply sub_unchanged. intros a b -> .
  destruct (Re.match_len ATTRIBUTION_RE b) as [n|] eqn:E; [|reflexivity].
  exfalso. apply match_len_sound in E. destruct E as (rest & E & Hm).
  apply ATTRIBUTION_RE_denotes in Hm. apply Hn.
  apply in_or_app. right. rewrite E. apply in_or_app. now left.
Qed.

(** X7: a text without a middle dot holds no attribution: the
    substitution leaves it as it is, and the canonicalizer works on the
    trimmed text. *)
Theorem text_without_middle_dot_is_not_stripped
        (P : Platform) (date : pystr) (formats : list pystr) :
  ~ In middle_dot date ->
  Re.sub ATTRIBUTION_RE date = date
  /\ canonicalization_date P date formats
     = try_formats P (strip date) formats.
Proof.
  intros Hn. pose proof (sub_without_middle_dot date Hn) as E.
  split; [exact E|]. unfold canonicalization_date. now rewrite E.
Qed.

Lemma text_without_middle_dot_is_not_stripped_witness :
  Re.sub ATTRIBUTION_RE (py "by the way, Jun 10, 2010")
  = py "by the way, Jun 10, 2010"
  /\ canonicalization_date ascii_platform (py "by the way, Jun 10, 2010")
                           default_formats
     = try_formats ascii_platform (strip (py "by the way, Jun 10, 2010"))
                   default_formats.
Proof.
  apply (@text_without_middle_dot_is_not_stripped ascii_platform
           (py "by the way, Jun 10, 2010") default_formats).
  vm_compute. intuition discriminate.
Defined.

(** *** Canonical dates are left alone *)

Lemma digit_is_digit n : (n < 10)%N -> is_digit_09 (digit n) = true.
Proof.
  intros H. unfold is_digit_09, in_range, digit. bool_to_Prop. lia.
Qed.

Lemma digit_not_space x : is_digit_09 x = true -> is_space x = false.
Proof.
  intros H. destruct (is_space x) eqn:E; [exfalso|reflexivity].
  unfold is_digit_09, is_space, in_range in *. bool_to_Prop. lia.
Qed.

Lemma digit_not_letter c x :
  is_lower_az c = true -> is_digit_09 x = true ->
  ignorecase_eq c x = false.
Proof.
  intros Hc Hx. destruct (ignorecase_eq c x) eqn:E; [exfalso|reflexivity].
  unfold is_lower_az, is_digit_09, ignorecase_eq, ascii_lower, is_upper_AZ,
    in_range in *.
  destruct ((65 <=? x)%N && (x <=? 90)%N) eqn:Eu; bool_to_Prop; lia.
Qed.

Lemma lstrip_nonspace x s : is_space x = false -> lstrip (x :: s) = x :: s.
Proof. intros H. simpl. now rewrite H. Qed.

(** A text whose first and last characters are no white space is its own
    trimmed text. *)
Lemma strip_nonspace_ends x mid y :
  is_space x = false -> is_space y = false ->
  strip (x :: mid ++ [y]) = x :: mid ++ [y].
Proof.
  intros Hx Hy. unfold strip. rewrite (@lstrip_nonspace x _ Hx).
  change (x :: mid ++ [y]) with ((x :: mid) ++ [y]).
  rewrite rev_app_distr. cbn [rev app].
  rewrite (@lstrip_nonspace y _ Hy).
  change (y :: rev mid ++ [x]) with ([y] ++ rev (x :: mid)).
  rewrite rev_app_distr, rev_involutive. reflexivity.
Qed.

Lemma month_name_first_letter names w :
  names = a_month \/ names = f_month ->
  In w (sorted_by_len names) ->
  exists c w', w = c :: w' /\ is_lower_az c = true.
Proof.
  intros [-> | ->] H; vm_compute in H;
    repeat (destruct H as [<-|H]; [eexists; eexists; split; reflexivity|]);
    destruct H.
Qed.


Section FixedPoint.
Variable P : Platform.

(** A text that starts with a digit parses under none of the two formats
    that start with the name of a month. *)
Lemma month_formats_refuse_digit names g x s :
  names = a_month \/ names = f_month ->
  is_digit_09 x = true ->
  Re.match_ (Seq (seqToRE names g) (day_year_re P)) (x :: s) = None.
Proof.
  intros Hn Hx.
  destruct (Re.match_ (Seq (seqToRE names g) (day_year_re P)) (x :: s))
    as [r|] eqn:E; [exfalso|reflexivity].
  apply month_first in E. destruct E as (w & Hw & Hp & _).
  destruct (@month_name_first_letter names w Hn Hw) as (c & w' & -> & Hc).
  cbn [ci_prefix] in Hp. apply andb_true_iff in Hp. destruct Hp as [Hp _].
  rewrite (@ascii_lower_lower c Hc), (@digit_not_letter c x Hc Hx) in Hp.
  discriminate.
Qed.

Lemma pattern_year :
  pattern P false (py "%Y") = Some (Seq (Grp "Y" (year_re P)) Eps).
Proof. reflexivity. Qed.

(** The year-only format parses texts of four characters only. *)
Lemma year_format_length text dt :
  strptime P text (py "%Y") = Ok dt -> List.length text = 4%nat.
Proof.
  unfold strptime. rewrite pattern_year.
  destruct (Re.match_ (Seq (Grp "Y" (year_re P)) Eps) text)
    as [[[|c rest] fd]|] eqn:E; try discriminate.
  intros _. apply match_sound in E. destruct E as (m & -> & H).
  unfold year_re in H. cbn [denotes] in H.
  destruct H as (? & ? & -> & (? & ? & -> & (c1 & -> & _)
                               & ? & ? & -> & (c2 & -> & _)
                               & ? & ? & -> & (c3 & -> & _) & (c4 & -> & _))
                 & ->).
  reflexivity.
Qed.

Lemma canonical_text_is_fixed a b c d e f g h :
  forallb is_digit_09 [a; b; c; d; e; f; g; h] = true ->
  canonicalization_date P [a; b; c; d; hyphen; e; f; hyphen; g; h]
                        default_formats
  = [a; b; c; d; hyphen; e; f; hyphen; g; h].
Proof.
  intros H. cbn [forallb] in H.
  repeat (apply andb_true_iff in H; destruct H as [? H]).
  set (t := [a; b; c; d; hyphen; e; f; hyphen; g; h]).
  assert (Hdot : ~ In middle_dot t).
  { unfold t. simpl. intros Hin.
    repeat (destruct Hin as [Hin|Hin];
            [subst; try discriminate;
             match goal with
             | Hd : is_digit_09 middle_dot = true |- _ => discriminate Hd
             end|]).
    exact Hin. }
  pose proof (sub_without_middle_dot t Hdot) as Es.
  unfold canonicalization_date. rewrite Es.
  assert (Et : strip t = t).
  { unfold t.
    change [a; b; c; d; hyphen; e; f; hyphen; g; h]
      with (a :: [b; c; d; hyphen; e; f; hyphen; g] ++ [h]).
    apply strip_nonspace_ends; now apply digit_not_space. }
  rewrite Et. unfold default_formats. cbn [try_formats].
  assert (Eb : strptime P t (py "%b %d, %Y") = Raise).
  { unfold strptime. rewrite pattern_abbreviated.
    unfold t. rewrite month_formats_refuse_digit; auto. }
  assert (EB : strptime P t (py "%B %d, %Y") = Raise).
  { unfold strptime. rewrite pattern_full.
    unfold t. rewrite month_formats_refuse_digit; auto. }
  assert (EY : strptime P t (py "%Y") = Raise).
  { destruct (strptime P t (py "%Y")) as [dt|] eqn:E; [|reflexivity].
    apply year_format_length in E. discriminate E. }
  rewrite Eb, EB, EY. reflexivity.
Qed.

End FixedPoint.

(** X8: the canonical form of a parsed date from the year 1000 on is left
    unchanged when it is canonicalized again: it holds no attribution and
    parses under none of the formats. *)
Theorem canonical_date_is_left_unchanged
        (P : Platform) (text format : pystr) (dt : datetime) :
  strptime P text format = Ok dt ->
  (1000 <= year dt)%N ->
  canonicalization_date P (strftime P dt (py "%Y-%m-%d")) default_formats
  = strftime P dt (py "%Y-%m-%d").
Proof.
  intros Hp Hy. apply strptime_calendar in Hp.
  destruct Hp as (Hyr & Hm & Hd).
  assert (Hd31 : (day dt <= 31)%N).
  { unfold days_in_month in Hd.
    destruct (month dt =? 2)%N; [destruct (is_leap (year dt))|
      destruct ((month dt =? 4) || (month dt =? 6) || (month dt =? 9)
                || (month dt =? 11))%N]; lia. }
  rewrite strftime_Ymd. unfold format_year, two_digits.
  replace (1000 <=? year dt)%N with true by (symmetry; apply N.leb_le; lia).
  cbn [app]. apply canonical_text_is_fixed. cbn [forallb].
  rewrite !digit_is_digit; auto;
    try (apply N.mod_lt; lia);
    apply N.Div0.div_lt_upper_bound; lia.
Qed.

Lemma canonical_date_is_left_unchanged_witness :
  canonicalization_date ascii_platform
    (strftime ascii_platform {| year := 2010; month := 6; day := 10 |}
              (py "%Y-%m-%d"))
    default_formats
  = strftime ascii_platform {| year := 2010; month := 6; day := 10 |}
             (py "%Y-%m-%d").
Proof.
  apply (@canonical_date_is_left_unchanged ascii_platform
           (py "Jun 10, 2010") (py "%b %d, %Y")
           {| year := 2010; month := 6; day := 10 |}).
  - vm_compute. reflexivity.
  - vm_compute. discriminate.
Defined.

(** ** The matcher finds a match where the pattern denotes one *)

Lemma star_k_complete {A} p m : forall s' (k : pystr -> option A),
  forallb p m = true ->
  (exists x, k s' = Some x) ->
  exists x, star_k p (m ++ s') k = Some x.
Proof.
  induction m as [|c m IH]; intros s' k Hm Hk.
  - simpl. destruct s' as [|c s'']; simpl; auto.
    destruct (p c); auto. destruct (star_k p s'' k); eauto.
  - simpl in Hm. apply andb_true_iff in Hm. destruct Hm as [Hc Hm].
    simpl. rewrite Hc. destruct (IH s' k Hm Hk) as (x & ->). eauto.
Qed.

Lemma match_k_complete {A} r :
  forall m s' caps (k : pystr -> Re.captures -> option A),
    denotes r m ->
    (forall caps', exists x, k s' caps' = Some x) ->
    exists x, match_k r (m ++ s') caps k = Some x.
Proof.
  induction r as [|p|r1 IH1 r2 IH2|r1 IH1 r2 IH2|p|name r IH];
    intros m s' caps k Hm Hk; simpl in Hm.
  - subst m. simpl. apply Hk.
  - destruct Hm as (c & -> & Hc). simpl. rewrite Hc. apply Hk.
  - destruct Hm as (m1 & m2 & -> & H1 & H2). rewrite <- app_assoc.
    cbn [match_k]. apply IH1; [exact H1|].
    intros caps'. apply IH2; assumption.
  - cbn [match_k]. destruct (match_k r1 (m ++ s') caps k) eqn:E; [eauto|].
    destruct Hm as [H1|H2].
    + destruct (IH1 m s' caps k H1 Hk) as (x & Hx). congruence.
    + apply IH2; assumption.
  - cbn [match_k]. apply star_k_complete; [exact Hm|apply Hk].
  - cbn [match_k]. apply IH; [exact Hm|]. intros caps'. apply Hk.
Qed.

Lemma match_len_complete r m s' :
  denotes r m -> exists n, Re.match_len r (m ++ s') = Some n.
Proof.
  intros H. unfold Re.match_len, Re.match_.
  destruct (match_k_complete r m s' [] (fun rest caps => Some (rest, caps)) H)
    as ([rest caps] & ->); eauto.
Qed.

Lemma match_len_sound_length r s n :
  Re.match_len r s = Some n ->
  exists m rest, s = m ++ rest /\ denotes r m /\ n = List.length m.
Proof.
  unfold Re.match_len. destruct (Re.match_ r s) as [[rest caps]|] eqn:E;
    [|discriminate].
  intros H. injection H as <-. apply match_sound in E.
  destruct E as (m & -> & Hm). exists m, rest.
  rewrite length_app, Nat.add_sub. auto.
Qed.

Lemma sub_empty_skip r a : forall b,
  Re.sub_empty r (List.length a) (a ++ b) = Re.sub_empty r 0 b.
Proof.
  induction a as [|c a IH]; intros b; [reflexivity|].
  cbn [List.length app Re.sub_empty]. apply IH.
Qed.

(** Two ways of cutting a text at the first occurrence of a character are
    one way. *)
Lemma split_at_first {A} (x : A) u : forall u' v v',
  ~ In x u -> ~ In x u' -> u ++ x :: v = u' ++ x :: v' ->
  u = u' /\ v = v'.
Proof.
  induction u as [|c u IH]; intros [|c' u'] v v' Hu Hu' E; simpl in *.
  - injection E as ->. auto.
  - injection E as <- _. tauto.
  - injection E as -> _. tauto.
  - injection E as -> E. destruct (IH u' v v') as [-> ->]; auto.
Qed.

(** ** Attributed years *)

Lemma no_middle_dot_in (p : cp -> bool) l :
  p middle_dot = false -> forallb p l = true -> ~ In middle_dot l.
Proof.
  intros Hp Hl Hin. rewrite forallb_forall in Hl. apply Hl in Hin.
  congruence.
Qed.

(** The attribution pattern removes an attribution at the head of a text
    up to the blank behind the middle dot, and leaves the four digits
    behind it. *)
Lemma sub_attributed_year initials name d1 d2 d3 d4 :
  forallb cls_initials initials = true ->
  forallb cls_name name = true ->
  forallb is_digit_09 [d1; d2; d3; d4] = true ->
  Re.sub ATTRIBUTION_RE
         (py "by " ++ initials ++ [space] ++ name
          ++ [space; middle_dot; space] ++ [d1; d2; d3; d4])
  = [d1; d2; d3; d4].
Proof.
  intros Hi Hn Hd.
  set (m0 := initials ++ [space] ++ name ++ [space; middle_dot; space]).
  assert (Hm0 : denotes ATTRIBUTION_RE (py "by " ++ m0)).
  { unfold ATTRIBUTION_RE, attribution.
    change (Lit (py "by ")) with
      (Seq (Chr 98%N) (Seq (Chr 121%N) (Chr space))).
    change (Lit [space; middle_dot])
      with (Seq (Chr space) (Chr middle_dot)).
    unfold Chr. cbn [denotes].
    exists (py "by " ++ initials ++ [space] ++ name ++ [space; middle_dot]),
      [space].
    split; [unfold m0; repeat rewrite <- app_assoc; reflexivity|].
    split; [|exists space; auto].
    exists (py "by "), (initials ++ [space] ++ name ++ [space; middle_dot]).
    split; [reflexivity|]. split.
    - exists [98%N], [121%N; space]. split; [reflexivity|].
      split; [exists 98%N; auto|].
      exists [121%N], [space]. split; [reflexivity|].
      split; [exists 121%N; auto | exists space; auto].
    - exists initials, ([space] ++ name ++ [space; middle_dot]).
      split; [reflexivity|]. split; [exact Hi|].
      exists [space], (name ++ [space; middle_dot]).
      split; [reflexivity|]. split; [exists space; auto|].
      exists name, [space; middle_dot].
      split; [reflexivity|]. split; [exact Hn|].
      exists [space], [middle_dot]. split; [reflexivity|].
      split; [exists space; auto | exists middle_dot; auto]. }
  replace (py "by " ++ initials ++ [space] ++ name
           ++ [space; middle_dot; space] ++ [d1; d2; d3; d4])
    with ((py "by " ++ m0) ++ [d1; d2; d3; d4])
    by (unfold m0; repeat rewrite <- app_assoc; reflexivity).
  destruct (match_len_complete ATTRIBUTION_RE (py "by " ++ m0)
                               [d1; d2; d3; d4] Hm0) as (n & En).
  pose proof En as Es. apply match_len_sound_length in Es.
  destruct Es as (m & rest & E & Hm & ->).
  (* the match ends behind the only middle dot of the text *)
  unfold ATTRIBUTION_RE in Hm. cbn [denotes] in Hm.
  destruct Hm as (ma & ? & -> & Ha & (c & -> & Hc)).
  unfold Chr in Hc. apply N.eqb_eq in Hc. subst c.
  apply attribution_denotes in Ha.
  destruct Ha as (i' & n' & -> & Hi' & Hn').
  assert (Hcut : py "by " ++ initials ++ [space] ++ name ++ [space]
                 = py "by " ++ i' ++ [space] ++ n' ++ [space]
                 /\ space :: [d1; d2; d3; d4] = space :: rest).
  { apply (split_at_first middle_dot).
    - intros Hin. repeat (apply in_app_or in Hin; destruct Hin as [Hin|Hin]);
        try (revert Hin; apply no_middle_dot_in with (p := cls_initials);
             auto; fail);
        try (revert Hin; apply no_middle_dot_in with (p := cls_name);
             auto; fail);
        vm_compute in Hin; intuition discriminate.
    - intros Hin. repeat (apply in_app_or in Hin; destruct Hin as [Hin|Hin]);
        try (revert Hin; apply no_middle_dot_in with (p := cls_initials);
             auto; fail);
        try (revert Hin; apply no_middle_dot_in with (p := cls_name);
             auto; fail);
        vm_compute in Hin; intuition discriminate.
    - revert E. unfold m0. repeat rewrite <- app_assoc. cbn [app].
      auto. }
  destruct Hcut as [Hu Hv]. injection Hv as <-.
  assert (Em : (py "by " ++ i' ++ [space] ++ n' ++ [space; middle_dot])
               ++ [space] = py "by " ++ m0).
  { unfold m0. apply (f_equal (fun l => l ++ [middle_dot; space])) in Hu.
    revert Hu. repeat rewrite <- app_assoc. cbn [app]. auto. }
  rewrite Em in En.
  unfold Re.sub. change (py "by " ++ m0) with (98%N :: ([121%N; space] ++ m0))
    in *.
  cbn [app Re.sub_empty] in *. rewrite En. cbn [List.length].
  change (121%N :: space :: m0 ++ [d1; d2; d3; d4])
    with ((121%N :: space :: m0) ++ [d1; d2; d3; d4]).
  rewrite sub_empty_skip.
  apply (sub_without_middle_dot [d1; d2; d3; d4]).
  apply no_middle_dot_in with (p := is_digit_09); auto.
Qed.

Section AttributedYear.
Variable P : Platform.

Lemma to_decimal_digit d :
  is_digit_09 d = true -> to_decimal P d = Some (d - 48)%N.
Proof.
  intros H. unfold to_decimal. rewrite H.
  replace (is_ascii d) with true; [reflexivity|].
  symmetry. unfold is_ascii, is_digit_09, in_range in *. bool_to_Prop. lia.
Qed.

Lemma is_decimal_digit d : is_digit_09 d = true -> is_decimal P d = true.
Proof. intros H. unfold is_decimal. now rewrite to_decimal_digit. Qed.

(** The value of four digits. *)
Lemma year_format_parses_digits d1 d2 d3 d4 :
  forallb is_digit_09 [d1; d2; d3; d4] = true ->
  strptime P [d1; d2; d3; d4] (py "%Y")
  = datetime_date
      ((((d1 - 48) * 10 + (d2 - 48)) * 10 + (d3 - 48)) * 10 + (d4 - 48))%N
      1 1.
Proof.
  intros H. cbn [forallb] in H.
  repeat (apply andb_true_iff in H; destruct H as [? H]).
  unfold strptime. rewrite pattern_year.
  unfold Re.match_, year_re. cbn [match_k].
  rewrite !is_decimal_digit by assumption.
  cbn [List.length Nat.sub firstn fold_right found_key rbind].
  change (String.eqb "Y" "Y") with true. cbv iota.
  unfold py_int.
  change [d1; d2; d3; d4] with (d1 :: [d2; d3] ++ [d4]).
  rewrite strip_nonspace_ends by (now apply digit_not_space).
  cbn [app int_digits]. rewrite !to_decimal_digit by assumption.
  cbn [int_digits rbind]. rewrite N.mul_0_l, N.add_0_l. reflexivity.
Qed.

End AttributedYear.

(** X9: a text made of the word "by", initials, a name, a middle dot and a
    year of four digits that does not start with 0 is returned as the first
    of January of that year: the four digits followed by "-01-01". *)
Theorem attributed_year_becomes_first_of_its_january
        (P : Platform) (initials name : pystr) (d1 d2 d3 d4 : cp) :
  forallb cls_initials initials = true ->
  forallb cls_name name = true ->
  forallb is_digit_09 [d1; d2; d3; d4] = true ->
  d1 <> 48%N ->
  canonicalization_date P
    (py "by " ++ initials ++ [space] ++ name
     ++ [space; middle_dot; space] ++ [d1; d2; d3; d4])
    default_formats
  = [d1; d2; d3; d4] ++ py "-01-01".
Proof.
  intros Hi Hn Hd H1. unfold canonicalization_date.
  rewrite (sub_attributed_year initials name d1 d2 d3 d4 Hi Hn Hd).
  pose proof Hd as Hd'. cbn [forallb] in Hd'.
  repeat (apply andb_true_iff in Hd'; destruct Hd' as [? Hd']).
  change [d1; d2; d3; d4] with (d1 :: [d2; d3] ++ [d4]) at 1.
  rewrite strip_nonspace_ends by (now apply digit_not_space).
  cbn [app]. unfold default_formats. cbn [try_formats].
  assert (Eb : strptime P [d1; d2; d3; d4] (py "%b %d, %Y") = Raise).
  { unfold strptime. rewrite pattern_abbreviated.
    rewrite month_formats_refuse_digit; auto. }
  assert (EB : strptime P [d1; d2; d3; d4] (py "%B %d, %Y") = Raise).
  { unfold strptime. rewrite pattern_full.
    rewrite month_formats_refuse_digit; auto. }
  rewrite Eb, EB, (year_format_parses_digits P d1 d2 d3 d4 Hd).
  unfold is_digit_09, in_range in *. bool_to_Prop.
  set (y := ((((d1 - 48) * 10 + (d2 - 48)) * 10 + (d3 - 48)) * 10
             + (d4 - 48))%N).
  assert (Hy : (1000 <= y <= 9999)%N) by (unfold y; lia).
  unfold datetime_date.
  replace (in_range 1 9999 y && in_range 1 12 1
           && in_range 1 (days_in_month y 1) 1) with true
    by (symmetry; unfold in_range, days_in_month; cbn; bool_to_Prop; lia).
  rewrite strftime_Ymd. cbn [year month day]. unfold format_year.
  replace (1000 <=? y)%N with true by (symmetry; apply N.leb_le; lia).
  assert (E1 : (y / 1000 = d1 - 48)%N)
    by (symmetry; apply (N.div_unique _ _ _ (y - (d1 - 48) * 1000));
        unfold y; lia).
  assert (E2 : (y / 100 = (d1 - 48) * 10 + (d2 - 48))%N)
    by (symmetry;
        apply (N.div_unique _ _ _ ((d3 - 48) * 10 + (d4 - 48)));
        unfold y; lia).
  assert (E3 : (y / 10 = ((d1 - 48) * 10 + (d2 - 48)) * 10 + (d3 - 48))%N)
    by (symmetry; apply (N.div_unique _ _ _ (d4 - 48)); unfold y; lia).
  assert (M2 : (y / 100 mod 10 = d2 - 48)%N)
    by (rewrite E2; symmetry;
        apply (N.mod_unique _ _ (d1 - 48)); lia).
  assert (M3 : (y / 10 mod 10 = d3 - 48)%N)
    by (rewrite E3; symmetry;
        apply (N.mod_unique _ _ ((d1 - 48) * 10 + (d2 - 48))); lia).
  assert (M4 : (y mod 10 = d4 - 48)%N)
    by (symmetry;
        apply (N.mod_unique _ _
                 (((d1 - 48) * 10 + (d2 - 48)) * 10 + (d3 - 48)));
        unfold y; lia).
  rewrite E1, M2, M3, M4. unfold digit.
  replace (48 + (d1 - 48))%N with d1 by lia.
  replace (48 + (d2 - 48))%N with d2 by lia.
  replace (48 + (d3 - 48))%N with d3 by lia.
  replace (48 + (d4 - 48))%N with d4 by lia.
  reflexivity.
Qed.

Lemma attributed_year_becomes_first_of_its_january_witness :
  canonicalization_date ascii_platform
    (py "by " ++ py "J-K" ++ [space] ++ py "Doe Smith"
     ++ [space; middle_dot; space] ++ py "1999")
    default_formats
  = py "1999" ++ py "-01-01".
Proof.
  apply (@attributed_year_becomes_first_of_its_january ascii_platform
           (py "J-K") (py "Doe Smith") 49%N 57%N 57%N 57%N);
    try reflexivity.
  discriminate.
Defined.

(** ** Whole runs *)

Section EmitFacts.
Context {A B : Type}.
Variable Q : event -> bool.

Lemma emits_ret (a : A) : emits Q (ret a).
Proof. intros st. exists []. simpl. rewrite app_nil_r. auto. Qed.

Lemma emits_lift (r : result A) : emits Q (lift r).
Proof. intros st. exists []. simpl. rewrite app_nil_r. auto. Qed.

Lemma emits_bind (m : M A) (f : A -> M B) :
  emits Q m -> (forall a, emits Q (f a)) -> emits Q (bind m f).
Proof.
  intros Hm Hf st. unfold bind.
  destruct (Hm st) as (mid & Ht & Hq & Ho).
  destruct (m st) as [[a|] st1]; simpl in *.
  - destruct (Hf a st1) as (mid' & Ht' & Hq' & Ho').
    exists (mid ++ mid'). rewrite Ht', Ho', Ht, Ho, app_assoc, forallb_app.
    rewrite Hq, Hq'. auto.
  - exists mid. auto.
Qed.

Lemma emits_try_except (m h : M A) :
  emits Q m -> emits Q h -> emits Q (try_except m h).
Proof.
  intros Hm Hh st. unfold try_except.
  destruct (Hm st) as (mid & Ht & Hq & Ho).
  destruct (m st) as [[a|] st1]; simpl in *.
  - exists mid. auto.
  - destruct (Hh st1) as (mid' & Ht' & Hq' & Ho').
    exists (mid ++ mid'). rewrite Ht', Ho', Ht, Ho, app_assoc, forallb_app.
    rewrite Hq, Hq'. auto.
Qed.
End EmitFacts.

Lemma emits_wait Q page ms :
  Q (Wait ms) = true -> emits Q (wait_for_timeout page ms).
Proof. intros H st. exists [Wait ms]. simpl. rewrite H. auto. Qed.

Ltac emits_tac :=
  repeat first
    [ apply emits_bind; [| intros ? ]
    | apply emits_try_except
    | apply emits_ret
    | apply emits_lift
    | apply emits_wait; reflexivity ].

Lemma emits_query P page row : emits query_event (query P page row).
Proof.
  unfold query, search_on_google, classify.
  destruct (results_page_reached page);
    destruct (extract_information_from_results P page) as [[d h]|];
    emits_tac;
    match goal with
    | |- emits _ (if ?b then _ else _) => destruct b; emits_tac
    end.
Qed.

Lemma emits_rotate_proxy B page cfg ps at_row :
  emits is_rotation_wait (rotate_proxy B page cfg ps at_row).
Proof.
  unfold rotate_proxy.
  match goal with |- emits _ (if ?b then _ else _) => destruct b end;
    emits_tac.
Qed.

Lemma emits_start_session B cfg :
  emits is_rotation_wait (start_session B cfg).
Proof.
  unfold start_session, launch_browser, accept_cookies.
  destruct (truthy cfg); emits_tac; apply emits_rotate_proxy.
Qed.

Lemma is_rotation_wait_any e : is_rotation_wait e = true -> any_wait e = true.
Proof. destruct e; auto. Qed.

Lemma query_event_any e : query_event e = true -> any_wait e = true.
Proof. destruct e; auto. Qed.

Lemma forallb_weaken {A} (f g : A -> bool) l :
  (forall a, f a = true -> g a = true) ->
  forallb f l = true -> forallb g l = true.
Proof.
  intros H. rewrite !forallb_forall. auto.
Qed.

(** One turn of the loop: the events of the query, the write and the
    rate-limit wait. *)
Lemma process_row_trace P page cfg row st :
  exists o mid,
    forallb query_event mid = true /\
    process_row P page cfg row st =
      (page_wait_for_timeout page (waiting_time cfg * 1000),
       {| output_file := output_file st ++ [record row o];
          trace := trace st ++ mid
                   ++ [Wrote (record row o);
                       Wait (waiting_time cfg * 1000)] |}).
Proof.
  unfold process_row, bind, try_except.
  destruct (emits_query P page row st) as (mid & Ht & Hq & Ho).
  destruct (query P page row st) as [[o|] st1]; simpl in *;
    [exists o, mid | exists Error, mid]; (split; [exact Hq|]);
    unfold comply_with_terms_of_use, wait_for_timeout; simpl;
    rewrite Ht, Ho, <- !app_assoc; reflexivity.
Qed.

Lemma writes_then_wait_waits ms l :
  forallb any_wait l = true -> writes_then_wait ms l = true.
Proof.
  induction l as [|[n|r] l IH]; simpl; auto; discriminate.
Qed.

Lemma writes_then_wait_app ms l1 : forall l2,
  writes_then_wait ms l1 = true -> writes_then_wait ms l2 = true ->
  writes_then_wait ms (l1 ++ l2) = true.
Proof.
  induction l1 as [|e l1 IH]; intros l2 H1 H2; [exact H2|].
  destruct e as [n|r].
  - simpl in *. auto.
  - cbn [app]. cbn [writes_then_wait] in H1 |- *.
    destruct l1 as [|[n|r'] l1']; try discriminate.
    cbn [app]. apply andb_true_iff in H1. destruct H1 as [Hn H1].
    rewrite Hn. cbn [andb]. apply (IH l2 H1 H2).
Qed.

Section RunTraces.
Variable P : Platform.

Lemma for_each_row_rate_limited B cfg ps data : forall st,
  exists new,
    trace (snd (for_each_row P B cfg ps data st)) = trace st ++ new
    /\ writes_then_wait (waiting_time cfg * 1000) new = true.
Proof.
  induction data as [|row data' IH]; intros st.
  - exists []. simpl. rewrite app_nil_r. auto.
  - cbn [for_each_row]. unfold bind at 1.
    assert (Hq : emits is_rotation_wait
                   (if truthy cfg
                    then rotate_proxy B (page_during B row) cfg ps (Some row)
                    else ret tt))
      by (destruct (truthy cfg); [apply emits_rotate_proxy|apply emits_ret]).
    destruct (Hq st) as (mid0 & Ht0 & Hq0 & _). clear Hq.
    revert Ht0.
    generalize ((if truthy cfg
                 then rotate_proxy B (page_during B row) cfg ps (Some row)
                 else ret tt) st).
    intros [[[]|] st1] Ht0; simpl in Ht0.
    + unfold bind at 1.
      destruct (process_row_trace P (page_during B row) cfg row st1)
        as (o & mid & Hmid & E).
      rewrite E.
      assert (Hturn : writes_then_wait (waiting_time cfg * 1000)
                        (mid0 ++ mid ++ [Wrote (record row o);
                                         Wait (waiting_time cfg * 1000)])
                      = true).
      { apply writes_then_wait_app;
          [apply writes_then_wait_waits;
           exact (forallb_weaken _ _ _ is_rotation_wait_any Hq0)|].
        apply writes_then_wait_app;
          [apply writes_then_wait_waits;
           exact (forallb_weaken _ _ _ query_event_any Hmid)|].
        simpl. rewrite Z.eqb_refl. reflexivity. }
      destruct (page_wait_for_timeout (page_during B row)
                  (waiting_time cfg * 1000)) as [[]|].
      * match goal with |- context [for_each_row P B cfg ps data' ?s] =>
          destruct (IH s) as (new & Hnew & Hw) end.
        exists ((mid0 ++ mid ++ [Wrote (record row o);
                                 Wait (waiting_time cfg * 1000)]) ++ new).
        split; [rewrite Hnew; simpl; rewrite Ht0, <- !app_assoc;
                reflexivity|].
        apply writes_then_wait_app; assumption.
      * eexists. split; [simpl; rewrite Ht0, <- !app_assoc; reflexivity|].
        exact Hturn.
    + exists mid0. split; [exact Ht0|].
      apply writes_then_wait_waits.
      exact (forallb_weaken _ _ _ is_rotation_wait_any Hq0).
Qed.

Lemma loop_rate_limited B cfg ps data st :
  exists new,
    trace (snd (loop P B cfg ps data st)) = trace st ++ new
    /\ writes_then_wait (waiting_time cfg * 1000) new = true.
Proof.
  destruct (tqdm_disable B) eqn:E.
  - rewrite (loop_without_bar P B cfg ps data st E).
    apply for_each_row_rate_limited.
  - rewrite (loop_with_bar P B cfg ps data st E).
    exists []. simpl. rewrite app_nil_r. auto.
Qed.

End RunTraces.

(** X10: in the trace of a run, whether it ends or is cut short, every
    write of a record is followed at once by the rate-limit wait of the
    run: no query is submitted between a write and its wait. *)
Theorem every_record_is_followed_by_the_rate_limit_wait
        (P : Platform) (B : Browser) (data : list Row)
        (cfg : option ProxyConfig) (st : state) :
  exists new,
    trace (snd (run_scraper P B data cfg st)) = trace st ++ new
    /\ writes_then_wait (waiting_time cfg * 1000) new = true.
Proof.
  unfold run_scraper, bind.
  destruct (emits_start_session B cfg st) as (mid & Ht & Hq & _).
  assert (Hmid : writes_then_wait (waiting_time cfg * 1000) mid = true)
    by (apply writes_then_wait_waits;
        exact (forallb_weaken _ _ _ is_rotation_wait_any Hq)).
  destruct (start_session B cfg st) as [[ps|] st1]; simpl in Ht.
  - destruct (loop_rate_limited P B cfg ps data st1)
      as (new & Hnew & Hw).
    exists (mid ++ new).
    split; [|now apply writes_then_wait_app].
    destruct (loop P B cfg ps data st1) as [[[]|] st2]; simpl in *;
      rewrite Hnew, Ht, app_assoc; reflexivity.
  - exists mid. auto.
Qed.

(** ** The rotation of the proxy *)

Lemma rotate_proxy_returned B page cfg ps row st :
  fst (rotate_proxy B page cfg ps (Some row) st) = Ok tt ->
  snd (rotate_proxy B page cfg ps (Some row) st)
  = {| output_file := output_file st;
       trace := trace st
                ++ (if rotation_due row then [Wait (10 * 1000)] else []) |}.
Proof.
  unfold rotate_proxy. fold (rotation_due row).
  destruct (rotation_due row).
  - unfold bind, lift, wait_for_timeout, ret.
    destruct (lookup (config_of cfg) "PROXY_ROTATE") as [endpoint|];
      [|discriminate].
    destruct (requests_get B (Some row) endpoint) as [text|];
      [|discriminate].
    destruct (page_wait_for_timeout page (10 * 1000)) as [[]|];
      [|discriminate].
    destruct (ps text); [reflexivity|discriminate].
  - intros _. destruct st. simpl. now rewrite app_nil_r.
Qed.

Lemma query_event_no_rotation mid :
  forallb query_event mid = true -> filter is_rotation_wait mid = [].
Proof.
  induction mid as [|e mid IH]; simpl; auto.
  intros H. apply andb_true_iff in H. destruct H as [He Hm].
  rewrite (IH Hm). destruct e as [ms|r]; [|reflexivity].
  simpl in *. destruct (ms =? 10000)%Z eqn:E; [|reflexivity].
  apply Z.eqb_eq in E. subst ms. discriminate He.
Qed.

Lemma rate_wait_no_rotation cfg :
  is_rotation_wait (Wait (waiting_time cfg * 1000)) = false.
Proof. unfold waiting_time. destruct (truthy cfg); reflexivity. Qed.

(** The turns of a loop whose rotations and rate-limit waits return rotate
    the proxy at the rows whose index is a multiple of 10 other than 0, and
    at no row without a proxy configuration. *)
Lemma for_each_row_rotations
      (P : Platform) (B : Browser) (cfg : option ProxyConfig)
      (ps : pystr -> result (bool * pystr)) (data : list Row) :
  forall st,
  (forall row, In row data ->
     (truthy cfg = true ->
      forall s, fst (rotate_proxy B (page_during B row) cfg ps (Some row) s)
                = Ok tt) /\
     page_wait_for_timeout (page_during B row) (waiting_time cfg * 1000)
     = Ok tt) ->
  exists new,
    trace (snd (for_each_row P B cfg ps data st)) = trace st ++ new
    /\ List.length (filter is_rotation_wait new)
       = if truthy cfg then List.length (filter rotation_due data)
         else 0%nat.
Proof.
  induction data as [|row data' IH]; intros st H.
  - exists []. simpl. rewrite app_nil_r. destruct (truthy cfg); auto.
  - destruct (H row (or_introl eq_refl)) as [Hrot Hwait].
    destruct (process_row_trace P (page_during B row) cfg row
                {| output_file := output_file st;
                   trace := trace st
                            ++ (if truthy cfg && rotation_due row
                                then [Wait (10 * 1000)] else []) |})
      as (o & mid & Hmid & E).
    assert (EL : for_each_row P B cfg ps (row :: data') st =
                 for_each_row P B cfg ps data'
                   (snd (process_row P (page_during B row) cfg row
                           {| output_file := output_file st;
                              trace := trace st
                                ++ (if truthy cfg && rotation_due row
                                    then [Wait (10 * 1000)] else []) |}))).
    { cbn [for_each_row]. unfold bind at 1. destruct (truthy cfg) eqn:Et.
      - specialize (Hrot eq_refl st).
        pose proof (rotate_proxy_returned B (page_during B row) cfg ps row
                                          st Hrot) as Hs.
        destruct (rotate_proxy B (page_during B row) cfg ps (Some row) st)
          as [r st1]. simpl in Hrot, Hs. subst r st1.
        cbn [andb] in E |- *. unfold bind at 1.
        change (10 * 1000)%Z with 10000%Z in *. rewrite E, Hwait.
        reflexivity.
      - unfold ret at 1. cbn [andb] in E |- *. unfold bind at 1.
        replace st with {| output_file := output_file st;
                           trace := trace st ++ [] |} at 1
          by (destruct st; simpl; now rewrite app_nil_r).
        rewrite E, Hwait. reflexivity. }
    rewrite EL, E. cbn [snd].
    match goal with |- context [for_each_row P B cfg ps data' ?s] =>
      destruct (IH s) as (new & Hnew & Hc) end.
    { intros r Hr. apply H. now right. }
    exists ((if truthy cfg && rotation_due row
             then [Wait (10 * 1000)] else [])
            ++ (mid ++ [Wrote (record row o);
                        Wait (waiting_time cfg * 1000)]) ++ new).
    split; [rewrite Hnew; simpl; rewrite <- !app_assoc; reflexivity|].
    rewrite !filter_app, (query_event_no_rotation mid Hmid).
    cbn [filter is_rotation_wait app].
    fold (is_rotation_wait (Wait (waiting_time cfg * 1000))).
    rewrite rate_wait_no_rotation. cbn [app]. rewrite length_app, Hc.
    destruct (truthy cfg); cbn [andb]; [|reflexivity].
    destruct (rotation_due row); reflexivity.
Qed.

(** X11: the loop rotates the proxy, with its wait of ten seconds, only
    where the progress bar hands the rows on and a proxy configuration is in
    use: then, when the rotations and the rate-limit waits return, it
    rotates at the rows whose index is a multiple of 10 other than 0 and at
    no other row.  With the bar enabled the loop stops at its header and
    rotates at no row. *)
Theorem proxy_is_rotated_at_every_tenth_index
        (P : Platform) (B : Browser) (cfg : option ProxyConfig)
        (ps : pystr -> result (bool * pystr)) (data : list Row)
        (st : state) :
  (forall row, In row data ->
     (truthy cfg = true ->
      forall s, fst (rotate_proxy B (page_during B row) cfg ps (Some row) s)
                = Ok tt) /\
     page_wait_for_timeout (page_during B row) (waiting_time cfg * 1000)
     = Ok tt) ->
  exists new,
    trace (snd (loop P B cfg ps data st)) = trace st ++ new
    /\ List.length (filter is_rotation_wait new)
       = if tqdm_disable B && truthy cfg
         then List.length (filter rotation_due data)
         else 0%nat.
Proof.
  intros H. destruct (tqdm_disable B) eqn:E; cbn [andb].
  - rewrite (loop_without_bar P B cfg ps data st E).
    apply for_each_row_rotations. exact H.
  - rewrite (loop_with_bar P B cfg ps data st E).
    exists []. simpl. rewrite app_nil_r. auto.
Qed.

Lemma proxy_is_rotated_at_every_tenth_index_witness :
  exists new,
    trace (snd (loop ascii_platform disabled_bar_session (Some proxy_conf)
                     (fun text => Ok (true, text))
                     [row_a; row_b; row_a'; row_20] st0))
    = trace st0 ++ new
    /\ List.length (filter is_rotation_wait new)
       = if tqdm_disable disabled_bar_session && truthy (Some proxy_conf)
         then List.length (filter rotation_due
                                  [row_a; row_b; row_a'; row_20])
         else 0%nat.
Proof.
  apply (@proxy_is_rotated_at_every_tenth_index ascii_platform
           disabled_bar_session (Some proxy_conf)
           (fun text => Ok (true, text))
           [row_a; row_b; row_a'; row_20] st0).
  intros row H. split; [|reflexivity].
  intros _ s.
  repeat (destruct H as [<-|H]; [reflexivity|]). destruct H.
Defined.

(** ** Resumed runs, continued *)

(** X12: [main] never changes or removes a row the output file holds; what
    it appends are the records of the first pending rows, in their order,
    each with the identifier and the url of its row, whether the run ends
    or is cut short.  The rows it records are rows of the input, and none
    of them has a url that [pd.read_table] read from the file; when the
    file cannot be read, nothing is appended. *)
Theorem main_only_appends_records_of_pending_rows
        (P : Platform) (B : Browser) (df : list Row)
        (output : option (list ResultRecord))
        (conf : result ProxyConfig) :
  exists done outcomes,
    List.length outcomes = List.length done
    /\ output_file (snd (main P B df output conf))
       = rows_of output
         ++ map (fun ro => record (fst ro) (snd ro)) (combine done outcomes)
    /\ (done = []
        \/ exists rows n,
             pending B df output = Ok rows /\ done = firstn n rows)
    /\ (forall row, In row done -> In row df)
    /\ (forall row file df_bak_url,
          In row done -> output = Some file ->
          pd_read_table B file = Ok df_bak_url ->
          ~ In (Some (url row)) df_bak_url).
Proof.
  destruct (pending B df output) as [rows|] eqn:E.
  - destruct (main_pending_Ok P B df output conf E) as (n & os & Hl & Eo).
    exists (firstn n rows), os. split; [exact Hl|]. split; [exact Eo|].
    split; [right; exists rows, n; auto|]. split.
    + intros row Hin. apply (@pending_incl B df output rows row E).
      rewrite <- (firstn_skipn n rows). apply in_or_app. now left.
    + intros row file col Hin Ho Hr. subst output.
      apply (@pending_not_read B df file col rows row Hr E).
      rewrite <- (firstn_skipn n rows). apply in_or_app. now left.
  - exists [], []. rewrite (main_pending_Raise P B df output conf E).
    simpl. rewrite app_nil_r. repeat split; auto; intros row; intros [].
Qed.

Section SecondRun.
Variable P : Platform.

(** Nothing is pending when every url of the input is read back from the
    file. *)
Lemma pending_of_recorded B df file :
  reads_urls_back B file ->
  (forall row, In row df -> In (url row) (map r_url file)) ->
  pending B df (Some file) = Ok [].
Proof.
  unfold reads_urls_back, pending. intros -> H. cbn [rbind].
  destruct file as [|r l].
  - destruct df as [|row df]; [reflexivity|].
    destruct (H row (or_introl eq_refl)).
  - change (0 <? List.length (map (fun r => Some (r_url r)) (r :: l)))%nat
      with true. cbv iota. f_equal.
    induction df as [|row df IH]; [reflexivity|].
    cbn [filter].
    rewrite (proj2 (isin_In (url row) (map (fun r => Some (r_url r))
                                           (r :: l)))).
    + cbn [negb]. apply IH. intros row' Hr. apply H. now right.
    + specialize (H row (or_introl eq_refl)).
      apply in_map_iff in H. destruct H as (x & Hx & Hin).
      apply in_map_iff. exists x. split; [now rewrite Hx|exact Hin].
Qed.

Lemma main_without_pending_rows B df output conf :
  pending B df output = Ok [] ->
  output_file (snd (main P B df output conf)) = rows_of output.
Proof.
  intros E.
  destruct (main_pending_Ok P B df output conf E) as (n & os & _ & ->).
  destruct n; simpl; apply app_nil_r.
Qed.

End SecondRun.

(** X13: after a run that recorded every pending row, a second run on the
    same input finds nothing to do and appends no row to the output file,
    provided [pd.read_table] reads the urls of the file back as they were
    written, before the first run and before the second. *)
Theorem second_run_after_complete_run_appends_nothing
        (P : Platform) (B1 B2 : Browser) (df rows : list Row)
        (output : option (list ResultRecord))
        (conf1 conf2 : result ProxyConfig) (outcomes : list Outcome) :
  (forall file, output = Some file -> reads_urls_back B1 file) ->
  reads_urls_back B2 (output_file (snd (main P B1 df output conf1))) ->
  pending B1 df output = Ok rows ->
  List.length outcomes = List.length rows ->
  output_file (snd (main P B1 df output conf1))
  = rows_of output
    ++ map (fun ro => record (fst ro) (snd ro)) (combine rows outcomes) ->
  run_twice P B1 B2 df output conf1 conf2
  = output_file (snd (main P B1 df output conf1)).
Proof.
  intros Hb1 Hb2 Ep Hl E. unfold run_twice.
  set (after1 := output_file (snd (main P B1 df output conf1))) in *.
  assert (Hall : forall row, In row df -> In (url row) (map r_url after1)).
  { intros row Hrow. rewrite E, map_app, (urls_of_records _ _ Hl).
    apply in_or_app.
    destruct (pending_Ok B1 df output Ep)
      as [->|(file & col & -> & Hr & _ & ->)].
    - right. now apply in_map.
    - destruct (isin (url row) col) eqn:Ei.
      + left. apply isin_In in Ei.
        rewrite (Hb1 file eq_refl) in Hr. injection Hr as <-.
        apply in_map_iff in Ei. destruct Ei as (x & Hx & Hin).
        injection Hx as Hx. apply in_map_iff. exists x. auto.
      + right. apply in_map. apply filter_In. split; [exact Hrow|].
        now rewrite Ei. }
  apply (main_without_pending_rows P B2 df (Some after1) conf2).
  apply pending_of_recorded; assumption.
Qed.

Lemma second_run_after_complete_run_appends_nothing_witness :
  run_twice ascii_platform disabled_bar_session disabled_bar_session
            [row_a; row_b] (Some [record row_b NoResults]) Raise Raise
  = output_file
      (snd (main ascii_platform disabled_bar_session [row_a; row_b]
                 (Some [record row_b NoResults]) Raise)).
Proof.
  apply (@second_run_after_complete_run_appends_nothing ascii_platform
           disabled_bar_session disabled_bar_session [row_a; row_b] [row_a]
           (Some [record row_b NoResults]) Raise Raise
           [Success (py "2010-06-10") (PStr (py "https://a.example/"))]);
    try (vm_compute; reflexivity).
  intros file H. injection H as <-. vm_compute. reflexivity.
Defined.

(** ** A failed submission *)

(** X14: when the submission of the query raises, at whichever step, the
    pair (ERROR, ERROR) is recorded for the row and the rate-limit wait
    follows; the page is not classified. *)
Theorem failed_submission_is_recorded_as_error
        (P : Platform) (page : Page) (cfg : option ProxyConfig)
        (row : Row) (st st1 : state) :
  search_on_google page (url row) st = (Raise, st1) ->
  process_row P page cfg row st =
    (page_wait_for_timeout page (waiting_time cfg * 1000),
     {| output_file := output_file st ++ [record row Error];
        trace := trace st1
                 ++ [Wrote (record row Error);
                     Wait (waiting_time cfg * 1000)] |})
  /\ first_result Error = (py "ERROR", PStr (py "ERROR")).
Proof.
  intros Hs. split; [|reflexivity].
  destruct (quiet_search page (url row) st) as (mid & _ & Ho).
  rewrite Hs in Ho. simpl in Ho.
  unfold process_row, try_except, query, bind at 1 2. rewrite Hs.
  unfold bind, ret, write_results, comply_with_terms_of_use,
    wait_for_timeout.
  simpl. rewrite Ho, <- !app_assoc. reflexivity.
Qed.

Lemma failed_submission_is_recorded_as_error_witness :
  process_row ascii_platform dead_page None row_a st0 =
    (Ok tt,
     {| output_file := [record row_a Error];
        trace := [Wrote (record row_a Error); Wait 180000] |})
  /\ first_result Error = (py "ERROR", PStr (py "ERROR")).
Proof.
  exact (@failed_submission_is_recorded_as_error ascii_platform dead_page
           None row_a st0 st0 eq_refl).
Defined.

(** ** The start of the session *)

(** X15: without a proxy configuration the start of the session issues no
    wait and writes nothing, and the session starts exactly when the
    browser is launched and the search page is opened; a cookie prompt that
    cannot be clicked changes nothing. *)
Theorem session_without_proxy_starts
        (B : Browser) (cfg : option ProxyConfig) (st : state) :
  truthy cfg = false ->
  snd (start_session B cfg st) = st
  /\ ((exists ps, fst (start_session B cfg st) = Ok ps) <->
      chromium_launch B = Ok tt /\ page_goto B = Ok tt).
Proof.
  intros Ht. unfold start_session, launch_browser, accept_cookies,
    try_except, bind, lift, ret. rewrite Ht.
  destruct (chromium_launch B) as [[]|], (page_goto B) as [[]|];
    try destruct (page_click (page_before B) I_AGREE_BUTTON) as [[]|];
    simpl; (split; [reflexivity|]); split;
    try (intros (ps & H); discriminate H);
    try (intros [H1 H2]; discriminate);
    eauto.
Qed.

Lemma session_without_proxy_starts_witness :
  snd (start_session no_prompt_session None st0) = st0
  /\ ((exists ps, fst (start_session no_prompt_session None st0) = Ok ps) <->
      chromium_launch no_prompt_session = Ok tt
      /\ page_goto no_prompt_session = Ok tt).
Proof.
  apply (@session_without_proxy_starts no_prompt_session None st0).
  reflexivity.
Defined.

(** X16: a proxy configuration that lacks one of its six keys does not
    start a session: [run_scraper] raises before the first row and before
    any wait, and writes nothing. *)
Theorem incomplete_proxy_configuration_stops_the_run
        (P : Platform) (B : Browser) (data : list Row)
        (cfg : ProxyConfig) (key : string) (st : state) :
  cfg <> [] ->
  In key proxy_keys ->
  lookup cfg key = Raise ->
  run_scraper P B data (Some cfg) st = (Raise, st).
Proof.
  intros Hne Hin Hk.
  assert (Ht : truthy (Some cfg) = true)
    by (destruct cfg; [exfalso; apply Hne; reflexivity | reflexivity]).
  unfold run_scraper, start_session, launch_browser, rotate_proxy.
  rewrite Ht. cbn [config_of]. unfold bind, lift, ret.
  destruct (lookup cfg "PROXY_ADDRESS") eqn:E1; [|reflexivity].
  destruct (lookup cfg "PROXY_PORT") eqn:E2; [|reflexivity].
  destruct (lookup cfg "PROXY_USER") eqn:E3; [|reflexivity].
  destruct (lookup cfg "PROXY_PASSWORD") eqn:E4; [|reflexivity].
  destruct (chromium_launch B) as [[]|]; [|reflexivity].
  destruct (lookup cfg "PROXY_STATUS") as [source|] eqn:E5; [|reflexivity].
  destruct (eval_PROXY_STATUS B source) as [ps|]; [|reflexivity].
  destruct (lookup cfg "PROXY_ROTATE") eqn:E6; [|reflexivity].
  exfalso. unfold proxy_keys in Hin. simpl in Hin.
  repeat (destruct Hin as [<-|Hin]; [congruence|]). exact Hin.
Qed.

Lemma incomplete_proxy_configuration_stops_the_run_witness :
  run_scraper ascii_platform steady_session [row_a]
              (Some [("PROXY_ADDRESS"%string, py "http://proxy.example")])
              st0
  = (Raise, st0).
Proof.
  apply (@incomplete_proxy_configuration_stops_the_run ascii_platform
           steady_session [row_a]
           [("PROXY_ADDRESS"%string, py "http://proxy.example")]
           "PROXY_PORT"%string st0).
  - discriminate.
  - simpl. auto.
  - reflexivity.
Defined.
